(** * Food tracker: the nutrient engine of [app.py]

    A shallow embedding of the computations of [app.py] (scaling of a food's
    nutrients to a logged quantity, the daily and weekly aggregates, the
    progress bars of the Today tab, and the handlers that write the food
    catalogue and the log), with the properties of the specification stated
    over it.

    Frames are lists of rows in frame order.  Numeric cells are [float64] in
    the program; the functions are written once over a small interface of
    the arithmetic they use and read at two instances: primitive binary64
    floats, operation for operation as numpy computes them, and the
    rationals, the exact arithmetic the specification's equations are
    written in. *)

From Stdlib Require Import List ZArith QArith Qminmax Bool String Ascii.
From Stdlib Require Import Floats Lia Sorted Permutation.
Import ListNotations.

Set Implicit Arguments.
Set Warnings "-inexact-float".

(** ** Numbers *)

(** The arithmetic the program performs on numeric cells: the literals [0]
    and [1.0], [+] (inside [sum]), [*], [/], [<] (inside [min]) and the
    test for a missing value (inside [sum], which skips NaN cells). *)
Class Num (A : Type) : Type := {
  num_0 : A;
  num_1 : A;
  num_add : A -> A -> A;
  num_mul : A -> A -> A;
  num_div : A -> A -> A;
  num_lt : A -> A -> bool;
  num_isnan : A -> bool
}.

Definition Qltb (x y : Q) : bool := negb (Qle_bool y x).

(** Exact arithmetic. *)
#[export] Instance exact : Num Q := {|
  num_0 := 0%Q;
  num_1 := 1%Q;
  num_add := Qplus;
  num_mul := Qmult;
  num_div := Qdiv;
  num_lt := Qltb;
  num_isnan := fun _ => false
|}.

(** IEEE 754 binary64, the [float64] of numpy: division by zero returns an
    infinity or a NaN (with a warning) and never raises. *)
#[export] Instance float64 : Num float := {|
  num_0 := 0%float;
  num_1 := 1%float;
  num_add := PrimFloat.add;
  num_mul := PrimFloat.mul;
  num_div := PrimFloat.div;
  num_lt := PrimFloat.ltb;
  num_isnan := PrimFloat.is_nan
|}.

(** [sum] of a column with the defaults of pandas ([skipna=True],
    [min_count=0]): NaN cells are left out and the rest is accumulated from
    [0], so the empty sum is [0].  It stands for both [DataFrame.sum()]
    (line 64) and [groupby().sum()] (line 71).  In exact arithmetic the
    order of accumulation is immaterial.  On binary64 pandas adds in an
    order of its own, and not in the same one for the two calls, so the
    fold gives the value of a program sum in exact arithmetic and for the
    empty sum only; what is stated of the value of a sum is stated on the
    exact instance. *)
Definition num_sum {A} `{Num A} (l : list A) : A :=
  fold_left num_add (filter (fun x => negb (num_isnan x)) l) num_0.

(** Python's [min(a, b)]: the first argument unless the second is strictly
    smaller. *)
Definition py_min {A} `{Num A} (a b : A) : A :=
  if num_lt b a then b else a.

(** Classification of a binary64 value. *)
Definition is_NaN (x : float) : Prop := Prim2SF x = S754_nan.

(** ** Outcomes *)

(** The error taxonomy of the specification.  [app.py] defines no exception
    class and has no [raise] statement; the type is there so that "fails
    with" can be stated. *)
Inductive error : Type :=
  | ValidationError
  | NotFoundError
  | InvalidQuantityError
  | InvalidGoalError
  | DuplicateNameError.

Inductive outcome (A : Type) : Type :=
  | Returns (a : A)
  | Raises (e : error).
Arguments Returns {A} a.
Arguments Raises {A} e.

(** ** Rows *)

(** A row of [foods.csv]. *)
Record Food (A : Type) : Type := mkFood {
  name : string;
  base_amount : A;
  unit : string;
  calories : A;
  protein_g : A;
  fat_g : A;
  sat_fat_g : A
}.

(** The dictionary returned by [compute_nutrients]; also the index of the
    totals of [daily_summary]. *)
Record Nutrients (A : Type) : Type := mkNutrients {
  n_calories : A;
  n_protein_g : A;
  n_fat_g : A;
  n_sat_fat_g : A
}.

(** ** Helper computations *)

Section Helpers.
Context {A : Type} `{Num A}.

(** [compute_nutrients(row, qty)], lines 52-60. *)
Definition compute_nutrients (row : Food A) (qty : A) : Nutrients A :=
  let factor := num_div qty (base_amount row) in
  {| n_calories := num_mul (calories row) factor;
     n_protein_g := num_mul (protein_g row) factor;
     n_fat_g := num_mul (fat_g row) factor;
     n_sat_fat_g := num_mul (sat_fat_g row) factor |}.

(** A call of [compute_nutrients] as an outcome: the body is one division,
    four multiplications and a [return]; it tests nothing and raises
    nothing. *)
Definition call_compute_nutrients (row : Food A) (qty : A)
  : outcome (Nutrients A) :=
  Returns (compute_nutrients row qty).

End Helpers.

(** ** Dates *)

(** A cell of the [date] column ([datetime64[ns]]): nanoseconds since the
    epoch, or [None] for [NaT].  A [datetime.date] is its day number. *)
Definition Timestamp : Type := option Z.

Definition ns_per_day : Z := 86400000000000.

(** [pd.to_datetime(day)] for a [datetime.date]: midnight of that day. *)
Definition to_datetime (day : Z) : Timestamp := Some (day * ns_per_day)%Z.

(** [pd.Timedelta(days=n)]. *)
Definition Timedelta_days (n : Z) : Z := (n * ns_per_day)%Z.

(** [ts - delta]. *)
Definition ts_sub (ts : Timestamp) (delta : Z) : Timestamp :=
  option_map (fun t => (t - delta)%Z) ts.

(** Elementwise [==], [>=] and [<=] on the column: a comparison with [NaT]
    is [False]. *)
Definition ts_eqb (a b : Timestamp) : bool :=
  match a, b with
  | Some x, Some y => (x =? y)%Z
  | _, _ => false
  end.

Definition ts_leb (a b : Timestamp) : bool :=
  match a, b with
  | Some x, Some y => (x <=? y)%Z
  | _, _ => false
  end.

Definition ts_geb (a b : Timestamp) : bool := ts_leb b a.

(** The [.dt.date] accessor: the calendar day of a timestamp. *)
Definition dt_date (ts : Timestamp) : option Z :=
  option_map (fun t => (t / ns_per_day)%Z) ts.

(** A row of [log.csv], as [load_log] and the upload read it with
    [parse_dates=["date"]]: the date column holds timestamps. *)
Record Entry (A : Type) : Type := mkEntry {
  date : Timestamp;
  food : string;
  quantity : A;
  e_unit : string;
  e_base_amount : A;
  e_calories : A;
  e_protein_g : A;
  e_fat_g : A;
  e_sat_fat_g : A
}.

(** A row of [by_day]: the group key and the three summed columns. *)
Record DayRow (A : Type) : Type := mkDayRow {
  d_date : Z;
  d_calories : A;
  d_protein_g : A;
  d_sat_fat_g : A
}.

(** ** Aggregates *)

(** The sorted distinct group keys of [groupby] (its defaults: [sort=True],
    [dropna=True]). *)
Fixpoint insert_key (k : Z) (ks : list Z) : list Z :=
  match ks with
  | [] => [k]
  | k' :: ks' =>
      match (k ?= k')%Z with
      | Lt => k :: ks
      | Eq => ks
      | Gt => k' :: insert_key k ks'
      end
  end.

Definition group_keys (keys : list (option Z)) : list Z :=
  fold_right
    (fun key acc => match key with Some k => insert_key k acc | None => acc end)
    [] keys.

Definition key_eqb (key : option Z) (k : Z) : bool :=
  match key with
  | Some k' => (k' =? k)%Z
  | None => false
  end.

Section Aggregates.
Context {A : Type} `{Num A}.

(** [df[["calories","protein_g","fat_g","sat_fat_g"]].sum()]. *)
Definition sum_nutrients (df : list (Entry A)) : Nutrients A :=
  {| n_calories := num_sum (map (@e_calories A) df);
     n_protein_g := num_sum (map (@e_protein_g A) df);
     n_fat_g := num_sum (map (@e_fat_g A) df);
     n_sat_fat_g := num_sum (map (@e_sat_fat_g A) df) |}.

(** [daily_summary(log_df, day)], lines 62-65. *)
Definition daily_summary (log_df : list (Entry A)) (day : Z)
  : list (Entry A) * Nutrients A :=
  let day_df := filter (fun r => ts_eqb (date r) (to_datetime day)) log_df in
  let totals := sum_nutrients day_df in
  (day_df, totals).

(** The rows of one group. *)
Definition group_rows (week : list (Entry A)) (k : Z) : list (Entry A) :=
  filter (fun r => key_eqb (dt_date (date r)) k) week.

(** [week.groupby(week["date"].dt.date)[["calories","protein_g",
    "sat_fat_g"]].sum().reset_index()]: one row per key, keys ascending. *)
Definition groupby_date_sum (week : list (Entry A)) : list (DayRow A) :=
  map (fun k =>
         let g := group_rows week k in
         {| d_date := k;
            d_calories := num_sum (map (@e_calories A) g);
            d_protein_g := num_sum (map (@e_protein_g A) g);
            d_sat_fat_g := num_sum (map (@e_sat_fat_g A) g) |})
      (group_keys (map (fun r => dt_date (date r)) week)).

(** The boolean mask of line 69. *)
Definition week_mask (end_day : Z) (r : Entry A) : bool :=
  let start := ts_sub (to_datetime end_day) (Timedelta_days 6) in
  ts_geb (date r) start && ts_leb (date r) (to_datetime end_day).

(** [weekly_summary(log_df, end_day)], lines 67-72. *)
Definition weekly_summary (log_df : list (Entry A)) (end_day : Z)
  : list (Entry A) * list (DayRow A) :=
  let week := filter (week_mask end_day) log_df in
  let by_day := groupby_date_sum week in
  (week, by_day).

(** The argument of each [st.progress] of the Today tab, lines 130, 132 and
    134: [min(totals.get(n, 0) / goal, 1.0)]. *)
Definition progress (total goal : A) : A :=
  py_min (num_div total goal) num_1.

(** The three bars of the Today tab, from the totals of [daily_summary] and
    the three goals of the sidebar. *)
Record Goals : Type := mkGoals {
  g_calories : A;
  g_protein_g : A;
  g_sat_fat_g : A
}.

Definition today_progress (totals : Nutrients A) (goals : Goals) : A * A * A :=
  (progress (n_calories totals) (g_calories goals),
   progress (n_protein_g totals) (g_protein_g goals),
   progress (n_sat_fat_g totals) (g_sat_fat_g goals)).

End Aggregates.
Arguments Goals A : clear implicits.

(** ** Strings *)

(** Whitespace as [str.strip] sees it, on ASCII text. *)
Definition is_space (c : ascii) : bool :=
  let n := nat_of_ascii c in
  ((9 <=? n) && (n <=? 13) || (28 <=? n) && (n <=? 32))%nat.

Fixpoint lstrip (s : string) : string :=
  match s with
  | EmptyString => EmptyString
  | String c s' => if is_space c then lstrip s' else s
  end.

Fixpoint rstrip (s : string) : string :=
  match s with
  | EmptyString => EmptyString
  | String c s' =>
      match rstrip s' with
      | EmptyString => if is_space c then EmptyString else String c EmptyString
      | r => String c r
      end
  end.

Definition strip (s : string) : string := rstrip (lstrip s).

(** Truth value of a string: non-empty. *)
Definition truthy (s : string) : bool :=
  match s with
  | EmptyString => false
  | String _ _ => true
  end.

(** ** The stored files and the handlers that write them *)

(** What a widget call such as [st.success] shows; the texts are left out. *)
Inductive feedback : Type :=
  | st_success
  | st_warning.

Section Handlers.
Context {A : Type} `{Num A}.

(** The contents of [foods.csv] and [log.csv].  The cache of [load_foods]
    is cleared by every [save_foods], so the frame [foods] of a script run
    is the file's content. *)
Record Files : Type := mkFiles {
  foods_csv : list (Food A);
  log_csv : list (Entry A)
}.

(** A piece of the script: it may write the files, and it returns or
    raises. *)
Definition App (R : Type) : Type := Files -> outcome R * Files.

Definition ret {R} (r : R) : App R := fun fs => (Returns r, fs).

Definition bind {R S} (m : App R) (k : R -> App S) : App S :=
  fun fs =>
    match m fs with
    | (Returns r, fs') => k r fs'
    | (Raises e, fs') => (Raises e, fs')
    end.

Notation "m ;; k" := (bind m (fun _ => k))
  (at level 61, right associativity).

(** [save_foods(df)], lines 26-28, and [save_log(df)], lines 37-38: the
    file becomes the frame. *)
Definition save_foods (df : list (Food A)) : App Datatypes.unit :=
  fun fs => (Returns tt, {| foods_csv := df; log_csv := log_csv fs |}).

Definition save_log (df : list (Entry A)) : App Datatypes.unit :=
  fun fs => (Returns tt, {| foods_csv := foods_csv fs; log_csv := df |}).

(** [pd.concat([df, pd.DataFrame([new])], ignore_index=True)]. *)
Definition concat_row {R} (df : list R) (new : R) : list R := df ++ [new].

(** The dictionary [new] of lines 106-113. *)
Definition new_entry (log_date : Z) (food_choice : string)
    (food_row : Food A) (qty : A) : Entry A :=
  let n := compute_nutrients food_row qty in
  {| date := to_datetime log_date;
     food := food_choice;
     quantity := qty;
     e_unit := unit food_row;
     e_base_amount := base_amount food_row;
     e_calories := n_calories n;
     e_protein_g := n_protein_g n;
     e_fat_g := n_fat_g n;
     e_sat_fat_g := n_sat_fat_g n |}.

(** The append of lines 114-115, for any row. *)
Definition append_entry (log : list (Entry A)) (e : Entry A)
  : App (list (Entry A)) :=
  let log' := concat_row log e in
  save_log log' ;; ret log'.

(** The body of [if st.button("Add to log")], lines 104-116; the result is
    the new value of the variable [log]. *)
Definition add_to_log (log : list (Entry A)) (log_date : Z)
    (food_choice : string) (food_row : Food A) (qty : A)
  : App (list (Entry A) * feedback) :=
  bind (append_entry log (new_entry log_date food_choice food_row qty))
       (fun log' => ret (log', st_success)).

(** The body of [if st.button("Add food")], lines 175-190. *)
Definition add_food (foods : list (Food A)) (name0 : string)
    (base_amount0 : A) (unit0 : string) (calories0 protein fat sat_fat : A)
  : App feedback :=
  if truthy (strip name0) then
    let new_row :=
      {| name := strip name0;
         base_amount := base_amount0;
         unit := unit0;
         calories := calories0;
         protein_g := protein;
         fat_g := fat;
         sat_fat_g := sat_fat |} in
    let foods_updated := concat_row foods new_row in
    save_foods foods_updated ;; ret st_success
  else ret st_warning.

(** The upload of a log, lines 208-212; the argument is the frame that
    [read_csv] returns for the uploaded file, [None] when nothing was
    uploaded. *)
Definition upload_log (uploaded_log : option (list (Entry A)))
  : App (option feedback) :=
  match uploaded_log with
  | Some new_log => save_log new_log ;; ret (Some st_success)
  | None => ret None
  end.

(** The upload of a catalogue, lines 203-207. *)
Definition upload_foods (uploaded_foods : option (list (Food A)))
  : App (option feedback) :=
  match uploaded_foods with
  | Some new_foods => save_foods new_foods ;; ret (Some st_success)
  | None => ret None
  end.

End Handlers.
Arguments Files A : clear implicits.
Arguments App A R : clear implicits.

(** ** Properties stated in the specification's words *)

(** An entry passes the validation that the specification ascribes to the
    bulk replacement: non-negative quantity and a parsed date. *)
Definition valid_entry (e : Entry Q) : Prop :=
  (0 <= quantity e)%Q /\ date e <> None.

(** Every stored date is a midnight timestamp. *)
Definition all_midnight {A} (log : list (Entry A)) : Prop :=
  forall r, In r log -> exists day, date r = to_datetime day.

(** The window of line 69 on timestamps: from midnight six days before
    [end_day] to midnight of [end_day], both included. *)
Definition in_window {A} (end_day : Z) (r : Entry A) : Prop :=
  exists t, date r = Some t /\
            ((end_day - 6) * ns_per_day <= t <= end_day * ns_per_day)%Z.

(** The window as a test on a row, written with the two bounds of the
    specification: midnight of day [end_day - 6] and midnight of day
    [end_day]. *)
Definition in_windowb {A} (end_day : Z) (r : Entry A) : bool :=
  match date r with
  | Some t =>
      (((end_day - 6) * ns_per_day <=? t) && (t <=? end_day * ns_per_day))%Z
  | None => false
  end.

(** The rows of a log that the roll-up for [end_day] is to count under
    calendar day [k]: those inside the window whose timestamp lies from
    midnight of day [k] up to, but not including, the next midnight. *)
Definition kept_on_day {A} (end_day k : Z) (r : Entry A) : bool :=
  in_windowb end_day r &&
  match date r with
  | Some t => ((k * ns_per_day <=? t) && (t <? (k + 1) * ns_per_day))%Z
  | None => false
  end.

(** The sum of a list of numbers in exact arithmetic, stated on its own:
    the sums the program computes are compared with it. *)
Fixpoint Qsum (l : list Q) : Q :=
  match l with
  | [] => 0%Q
  | x :: l' => (x + Qsum l')%Q
  end.


(** The names of a catalogue. *)
Definition names {A} (foods : list (Food A)) : list string :=
  map (@name A) foods.

(** ** Sample data *)

Definition oats : Food Q :=
  {| name := "Oats"; base_amount := 100; unit := "g"; calories := 379;
     protein_g := 13; fat_g := 7; sat_fat_g := 12 # 10 |}.

Definition oats64 : Food float :=
  {| name := "Oats"; base_amount := 100%float; unit := "g";
     calories := 379%float; protein_g := 13%float; fat_g := 7%float;
     sat_fat_g := 1.2%float |}.

(** A catalogue row whose base amount is zero, as an uploaded [foods.csv]
    can hold (the "Add food" form does not let one through, and the
    quantity input of line 103, whose least value is 1.0, does not accept
    such a base amount as its default). *)
Definition oats_zero64 : Food float :=
  {| name := "Oats"; base_amount := 0%float; unit := "g";
     calories := 379%float; protein_g := 13%float; fat_g := 7%float;
     sat_fat_g := 0%float |}.


(** Twelve hours, in nanoseconds. *)
Definition noon : Z := 43200000000000.

(** A log row for a quantity of oats with an arbitrary timestamp, as an
    uploaded [log.csv] can hold. *)
Definition oats_row (ts : Timestamp) (qty : Q) : Entry Q :=
  let n := compute_nutrients oats qty in
  {| date := ts; food := "Oats"; quantity := qty; e_unit := "g";
     e_base_amount := 100; e_calories := n_calories n;
     e_protein_g := n_protein_g n; e_fat_g := n_fat_g n;
     e_sat_fat_g := n_sat_fat_g n |}.

(** 2024-01-01 as a day number. *)
Definition jan1 : Z := 19723.

(** ** Further parts of the script *)

(** [foods[foods["name"] == food_choice].iloc[0]], line 101: the first row
    of the catalogue with that name; [None] stands for the [IndexError] of
    [.iloc[0]] on an empty selection. *)
Definition food_row_of {A} (foods : list (Food A)) (food_choice : string)
  : option (Food A) :=
  hd_error (filter (fun f => String.eqb (name f) food_choice) foods).

(** The first and the last character of a string, and strings made of
    whitespace only. *)
Definition first_char (s : string) : option ascii :=
  match s with
  | EmptyString => None
  | String c _ => Some c
  end.

Fixpoint last_char (s : string) : option ascii :=
  match s with
  | EmptyString => None
  | String c EmptyString => Some c
  | String _ s' => last_char s'
  end.

Definition is_space_char (o : option ascii) : bool :=
  match o with
  | Some c => is_space c
  | None => false
  end.

Fixpoint all_space (s : string) : bool :=
  match s with
  | EmptyString => true
  | String c s' => is_space c && all_space s'
  end.

(** Equality and sum of nutrient vectors in exact arithmetic. *)
Definition Nutrients_eq (a b : Nutrients Q) : Prop :=
  (n_calories a == n_calories b)%Q /\ (n_protein_g a == n_protein_g b)%Q /\
  (n_fat_g a == n_fat_g b)%Q /\ (n_sat_fat_g a == n_sat_fat_g b)%Q.

Definition Nutrients_add (a b : Nutrients Q) : Nutrients Q :=
  {| n_calories := (n_calories a + n_calories b)%Q;
     n_protein_g := (n_protein_g a + n_protein_g b)%Q;
     n_fat_g := (n_fat_g a + n_fat_g b)%Q;
     n_sat_fat_g := (n_sat_fat_g a + n_sat_fat_g b)%Q |}.

(** The four nutrient columns of a log row hold no negative value. *)
Definition nonneg_entry (e : Entry Q) : Prop :=
  (0 <= e_calories e)%Q /\ (0 <= e_protein_g e)%Q /\
  (0 <= e_fat_g e)%Q /\ (0 <= e_sat_fat_g e)%Q.

(** ** The cached catalogue *)

(** [load_foods] under [@st.cache_data] and [save_foods] with its
    [load_foods.clear()], lines 14-28.  The file is kept as its bytes and
    the two conversions [DataFrame.to_csv] and [pd.read_csv] are taken as
    they are: nothing is assumed of what reading back a written frame
    gives. *)
Module Cached.
Section Cached.
Variables Frame Bytes : Type.
Variable to_csv : Frame -> Bytes.
Variable read_csv : Bytes -> Frame.
Variable seed : Frame.

Record Store : Type := mkStore {
  foods_path : option Bytes;
  cache : option Frame
}.

(** A call of [load_foods]: a cached value is returned without running the
    body; otherwise the body runs (writing the seed when the file does not
    exist, then reading the file) and its result is cached. *)
Definition load_foods (s : Store) : Frame * Store :=
  match cache s with
  | Some df => (df, s)
  | None =>
      let file :=
        match foods_path s with
        | Some b => b
        | None => to_csv seed
        end in
      let df := read_csv file in
      (df, {| foods_path := Some file; cache := Some df |})
  end.

Definition save_foods (df : Frame) (s : Store) : Store :=
  {| foods_path := Some (to_csv df); cache := None |}.

(** The calls a process makes, in order. *)
Inductive call : Type :=
  | Load
  | Save (df : Frame).

Definition step (s : Store) (c : call) : Store :=
  match c with
  | Load => snd (load_foods s)
  | Save df => save_foods df s
  end.

Definition run (calls : list call) (s : Store) : Store :=
  fold_left step calls s.

(** A cached frame is what reading the file as it stands returns. *)
Definition coherent (s : Store) : Prop :=
  forall df, cache s = Some df ->
             exists b, foods_path s = Some b /\ df = read_csv b.

End Cached.
End Cached.

(** * The nutrient scaler *)

Section ScalerExact.
Local Open Scope Q_scope.

Lemma scale_field (c q b : Q) : c * (q / b) == c * q / b.
Proof. unfold Qdiv. ring. Qed.

(** C1.  For a food definition with a positive base amount and a positive
    quantity, the call returns, and each of the four fields of the result
    is the definition's field times [q / base_amount], that is
    [field * q / base_amount]; the value is the exact product, nothing is
    rounded. *)
Theorem compute_nutrients_scales (f : Food Q) (q : Q) :
  0 < base_amount f -> 0 < q ->
  call_compute_nutrients f q = Returns (compute_nutrients f q) /\
  n_calories (compute_nutrients f q) == calories f * q / base_amount f /\
  n_protein_g (compute_nutrients f q) == protein_g f * q / base_amount f /\
  n_fat_g (compute_nutrients f q) == fat_g f * q / base_amount f /\
  n_sat_fat_g (compute_nutrients f q) == sat_fat_g f * q / base_amount f.
Proof.
  intros _ _. split; [reflexivity|].
  repeat split; cbn; apply scale_field.
Qed.

Lemma compute_nutrients_scales_witness :
  0 < base_amount oats /\ 0 < 50 /\
  (call_compute_nutrients oats 50 = Returns (compute_nutrients oats 50) /\
   n_calories (compute_nutrients oats 50) == calories oats * 50 / base_amount oats /\
   n_protein_g (compute_nutrients oats 50) == protein_g oats * 50 / base_amount oats /\
   n_fat_g (compute_nutrients oats 50) == fat_g oats * 50 / base_amount oats /\
   n_sat_fat_g (compute_nutrients oats 50) == sat_fat_g oats * 50 / base_amount oats).
Proof.
  split; [reflexivity|]. split; [reflexivity|].
  apply (@compute_nutrients_scales oats 50); reflexivity.
Defined.

(** The scenario of the specification: 50 g of oats. *)
Example oats_50_exact :
  n_calories (compute_nutrients oats 50) == 1895 # 10 /\
  n_protein_g (compute_nutrients oats 50) == 65 # 10.
Proof. split; reflexivity. Qed.

(** C6, as stated, fails: a negative quantity is scaled like any other. *)
Lemma compute_nutrients_nonpositive_not_rejected :
  ~ (forall (f : Food Q) (q : Q),
       q <= 0 -> call_compute_nutrients f q = Raises InvalidQuantityError).
Proof.
  intros Hclaim.
  assert (Hq : -(50) <= 0) by discriminate.
  specialize (Hclaim oats (-(50)) Hq). discriminate Hclaim.
Qed.

(** C6, amended.  For a quantity [q <= 0] the scaler raises nothing: it
    returns the vector whose fields are the definition's fields times
    [q / base_amount], which are at most zero when the base amount is
    positive and the fields are not negative. *)
Theorem compute_nutrients_nonpositive (f : Food Q) (q : Q) :
  q <= 0 ->
  call_compute_nutrients f q = Returns (compute_nutrients f q) /\
  n_calories (compute_nutrients f q) == calories f * q / base_amount f /\
  n_protein_g (compute_nutrients f q) == protein_g f * q / base_amount f /\
  n_fat_g (compute_nutrients f q) == fat_g f * q / base_amount f /\
  n_sat_fat_g (compute_nutrients f q) == sat_fat_g f * q / base_amount f /\
  (0 < base_amount f -> 0 <= calories f ->
   n_calories (compute_nutrients f q) <= 0).
Proof.
  intros Hq. split; [reflexivity|].
  repeat split; try (cbn; apply scale_field).
  intros Hb Hc. cbn.
  assert (Hf : q / base_amount f <= 0).
  { unfold Qdiv. rewrite <- (Qmult_0_l (/ base_amount f)).
    apply Qmult_le_compat_r; [exact Hq|].
    apply Qlt_le_weak, Qinv_lt_0_compat, Hb. }
  rewrite <- (Qmult_0_r (calories f)).
  rewrite (Qmult_comm (calories f) (q / base_amount f)).
  rewrite (Qmult_comm (calories f) 0).
  apply Qmult_le_compat_r; assumption.
Qed.

Lemma compute_nutrients_nonpositive_witness :
  -(50) <= 0 /\
  (call_compute_nutrients oats (-(50))
     = Returns (compute_nutrients oats (-(50))) /\
   n_calories (compute_nutrients oats (-(50)))
     == calories oats * -(50) / base_amount oats /\
   n_protein_g (compute_nutrients oats (-(50)))
     == protein_g oats * -(50) / base_amount oats /\
   n_fat_g (compute_nutrients oats (-(50)))
     == fat_g oats * -(50) / base_amount oats /\
   n_sat_fat_g (compute_nutrients oats (-(50)))
     == sat_fat_g oats * -(50) / base_amount oats /\
   (0 < base_amount oats -> 0 <= calories oats ->
    n_calories (compute_nutrients oats (-(50))) <= 0)).
Proof.
  split; [discriminate|].
  apply (@compute_nutrients_nonpositive oats (-(50))). discriminate.
Defined.

Example oats_minus_50_exact :
  n_calories (compute_nutrients oats (-(50))) == -(1895 # 10).
Proof. reflexivity. Qed.

End ScalerExact.

(** * The scaler on binary64 *)

(** 50 g of oats in [float64]: 379 * (50 / 100) and 13 * (50 / 100). *)
Example oats_50_float64 :
  n_calories (compute_nutrients oats64 50%float) = 189.5%float /\
  n_protein_g (compute_nutrients oats64 50%float) = 6.5%float.
Proof. split; vm_compute; reflexivity. Qed.

(** On every instance each field of the result is one division followed by
    one multiplication, with nothing after them. *)
Lemma compute_nutrients_fields {A} `{Num A} (f : Food A) (q : A) :
  compute_nutrients f q
  = {| n_calories := num_mul (calories f) (num_div q (base_amount f));
       n_protein_g := num_mul (protein_g f) (num_div q (base_amount f));
       n_fat_g := num_mul (fat_g f) (num_div q (base_amount f));
       n_sat_fat_g := num_mul (sat_fat_g f) (num_div q (base_amount f)) |}.
Proof. reflexivity. Qed.

(** A sum over a column that holds a NaN cell leaves the cell out. *)
Example sum_skips_nan :
  num_sum [189.5%float; nan; 6.5%float] = 196%float.
Proof. vm_compute. reflexivity. Qed.









(** The same row on concrete values: 379 * (50 / 0) is [+inf] and
    0 * (50 / 0) is NaN; with the quantity 0 the calories are NaN. *)
Example zero_base_values :
  Prim2SF (n_calories (compute_nutrients oats_zero64 50%float))
    = S754_infinity false /\
  Prim2SF (n_sat_fat_g (compute_nutrients oats_zero64 50%float)) = S754_nan /\
  Prim2SF (n_calories (compute_nutrients oats_zero64 0%float)) = S754_nan.
Proof. repeat split; vm_compute; reflexivity. Qed.

(** * Dates and group keys *)

Lemma ts_eqb_eq (a b : Timestamp) : ts_eqb a b = true -> a = b.
Proof.
  destruct a as [x|], b as [y|]; cbn; try discriminate.
  intros Hxy. apply Z.eqb_eq in Hxy. now subst.
Qed.

Lemma ts_eqb_to_datetime (a : Timestamp) (day : Z) :
  ts_eqb a (to_datetime day) = true <-> a = to_datetime day.
Proof.
  split; [apply ts_eqb_eq|].
  intros ->. cbn. apply Z.eqb_refl.
Qed.

Lemma dt_date_to_datetime (day : Z) : dt_date (to_datetime day) = Some day.
Proof.
  cbn. f_equal. apply Z.div_mul. discriminate.
Qed.


Lemma key_eqb_true (key : option Z) (k : Z) :
  key_eqb key k = true <-> key = Some k.
Proof.
  destruct key as [k'|]; cbn.
  - rewrite Z.eqb_eq. split; congruence.
  - split; discriminate.
Qed.

Lemma insert_key_In (k x : Z) (ks : list Z) :
  In x (insert_key k ks) <-> x = k \/ In x ks.
Proof.
  induction ks as [|k' ks IH]; cbn.
  - intuition.
  - destruct (Z.compare_spec k k') as [Heq | Hlt | Hgt]; cbn.
    + subst. intuition.
    + intuition.
    + rewrite IH. intuition.
Qed.

Lemma insert_key_sorted (k : Z) (ks : list Z) :
  StronglySorted Z.lt ks -> StronglySorted Z.lt (insert_key k ks).
Proof.
  induction 1 as [|k' ks Hs IH Hall]; cbn.
  - repeat constructor.
  - destruct (Z.compare_spec k k') as [Heq | Hlt | Hgt].
    + constructor; assumption.
    + constructor; [constructor; assumption|].
      constructor; [exact Hlt|].
      eapply Forall_impl; [|exact Hall]. intros; lia.
    + constructor; [exact IH|].
      apply Forall_forall. intros x Hx.
      apply insert_key_In in Hx. destruct Hx as [-> | Hx]; [lia|].
      rewrite Forall_forall in Hall. now apply Hall.
Qed.

Lemma group_keys_In (k : Z) (keys : list (option Z)) :
  In k (group_keys keys) <-> In (Some k) keys.
Proof.
  induction keys as [|[k'|] keys IH]; cbn.
  - tauto.
  - rewrite insert_key_In, IH. split; intros [Hk | Hk]; auto; left; congruence.
  - rewrite IH. split; [auto|]. intros [Hk | Hk]; [discriminate | exact Hk].
Qed.

Lemma group_keys_sorted (keys : list (option Z)) :
  StronglySorted Z.lt (group_keys keys).
Proof.
  induction keys as [|[k'|] keys IH]; cbn.
  - constructor.
  - apply insert_key_sorted, IH.
  - exact IH.
Qed.

Lemma StronglySorted_lt_NoDup (ks : list Z) :
  StronglySorted Z.lt ks -> NoDup ks.
Proof.
  induction 1 as [|k ks Hs IH Hall]; constructor; [|exact IH].
  intros Hin. rewrite Forall_forall in Hall.
  specialize (Hall k Hin). lia.
Qed.

(** * The aggregates *)

Lemma filter_filter_ext {R} (g f h : R -> bool) (l : list R) :
  (forall r, In r l -> g r && f r = h r) ->
  filter f (filter g l) = filter h l.
Proof.
  induction l as [|r l IH]; intros Hp; cbn; [reflexivity|].
  assert (Hr : g r && f r = h r) by (apply Hp; left; reflexivity).
  assert (Hl : filter f (filter g l) = filter h l)
    by (apply IH; intros r' Hr'; apply Hp; now right).
  destruct (g r); cbn in *.
  - rewrite Hr, Hl. reflexivity.
  - rewrite <- Hr. exact Hl.
Qed.

Section AggregateFacts.
Context {A : Type} `{Num A}.

Lemma filter_none {R} (p : R -> bool) (l : list R) :
  (forall r, In r l -> p r = false) -> filter p l = [].
Proof.
  induction l as [|r l IH]; intros Hp; cbn; [reflexivity|].
  rewrite (Hp r) by (left; reflexivity).
  apply IH. intros r' Hr'. apply Hp. now right.
Qed.

(** C3.  When no entry of the log is dated [day], [daily_summary] selects no
    row and returns the totals with all four fields zero; being a total
    function it returns for every log and day. *)
Theorem daily_summary_no_entries (log : list (Entry A)) (day : Z) :
  (forall r, In r log -> date r <> to_datetime day) ->
  daily_summary log day
  = ([], {| n_calories := num_0; n_protein_g := num_0;
            n_fat_g := num_0; n_sat_fat_g := num_0 |}).
Proof.
  intros Hno. unfold daily_summary.
  rewrite filter_none; [reflexivity|].
  intros r Hr. specialize (Hno r Hr).
  destruct (ts_eqb (date r) (to_datetime day)) eqn:E; [|reflexivity].
  apply ts_eqb_eq in E. contradiction.
Qed.

Lemma week_mask_spec (end_day : Z) (r : Entry A) :
  week_mask end_day r = true <-> in_window end_day r.
Proof.
  unfold week_mask, in_window, ts_geb, to_datetime, Timedelta_days.
  destruct (date r) as [t|]; cbn [ts_sub ts_leb option_map andb].
  - rewrite andb_true_iff, !Z.leb_le. split.
    + intros [Hlo Hhi]. exists t. split; [reflexivity|].
      unfold ns_per_day in *. lia.
    + intros (t' & Ht & Hlo & Hhi). injection Ht as <-.
      unfold ns_per_day in *. lia.
  - split; [discriminate|]. intros (t & Ht & _). discriminate.
Qed.

Lemma group_rows_In (week : list (Entry A)) (k : Z) (r : Entry A) :
  In r (group_rows week k) <-> In r week /\ dt_date (date r) = Some k.
Proof.
  unfold group_rows. rewrite filter_In, key_eqb_true. reflexivity.
Qed.

Lemma groupby_date_sum_dates (week : list (Entry A)) :
  map (@d_date A) (groupby_date_sum week)
  = group_keys (map (fun r => dt_date (date r)) week).
Proof.
  unfold groupby_date_sum. rewrite map_map. cbn. apply map_id.
Qed.

Lemma groupby_date_sum_row (week : list (Entry A)) (row : DayRow A) :
  In row (groupby_date_sum week) ->
  row = {| d_date := d_date row;
           d_calories :=
             num_sum (map (@e_calories A) (group_rows week (d_date row)));
           d_protein_g :=
             num_sum (map (@e_protein_g A) (group_rows week (d_date row)));
           d_sat_fat_g :=
             num_sum (map (@e_sat_fat_g A) (group_rows week (d_date row))) |}.
Proof.
  unfold groupby_date_sum. rewrite in_map_iff.
  intros (k & <- & _). reflexivity.
Qed.

Lemma groupby_date_sum_key (week : list (Entry A)) (k : Z) :
  In k (map (@d_date A) (groupby_date_sum week))
  <-> exists r, In r week /\ dt_date (date r) = Some k.
Proof.
  rewrite groupby_date_sum_dates, group_keys_In, in_map_iff.
  split; intros (r & Hr1 & Hr2); exists r; auto.
Qed.


(** The mask looks at the date only. *)
Lemma week_mask_date (e : Z) (r r' : Entry A) :
  date r = date r' -> week_mask e r = week_mask e r'.
Proof. unfold week_mask. intros ->. reflexivity. Qed.

Lemma to_datetime_inj (j k : Z) : to_datetime j = to_datetime k -> j = k.
Proof.
  unfold to_datetime. intros Hjk. injection Hjk as Hjk.
  unfold ns_per_day in Hjk. lia.
Qed.

(** On a log of midnight timestamps, the rows of a group of the week are
    the rows [daily_summary] selects for that day. *)
Lemma midnight_group_is_day (log : list (Entry A)) (e k : Z) :
  all_midnight log ->
  In k (map (@d_date A) (snd (weekly_summary log e))) ->
  group_rows (fst (weekly_summary log e)) k = fst (daily_summary log k).
Proof.
  intros Hmid Hk. cbn [weekly_summary daily_summary fst snd] in *.
  apply groupby_date_sum_key in Hk. destruct Hk as (r0 & Hr0 & Hday0).
  apply filter_In in Hr0. destruct Hr0 as [Hr0 Hmask0].
  destruct (Hmid r0 Hr0) as [j0 Hj0].
  rewrite Hj0, dt_date_to_datetime in Hday0. injection Hday0 as ->.
  unfold group_rows. apply filter_filter_ext.
  intros r Hr. destruct (Hmid r Hr) as [j Hj].
  rewrite Hj, dt_date_to_datetime. cbn [key_eqb].
  destruct (Z.eqb_spec j k) as [-> | Hne].
  - rewrite (week_mask_date e r r0) by congruence.
    rewrite Hmask0. symmetry. apply ts_eqb_to_datetime. reflexivity.
  - rewrite andb_false_r. symmetry.
    destruct (ts_eqb (to_datetime j) (to_datetime k)) eqn:E; [|reflexivity].
    apply ts_eqb_eq, to_datetime_inj in E. contradiction.
Qed.

End AggregateFacts.

(** A log with one row dated 2024-01-01 has nothing on the next day. *)
Lemma daily_summary_no_entries_witness :
  (forall r, In r [oats_row (to_datetime jan1) 50] ->
             date r <> to_datetime (jan1 + 1)) /\
  daily_summary [oats_row (to_datetime jan1) 50] (jan1 + 1)
  = ([], {| n_calories := 0%Q; n_protein_g := 0%Q;
            n_fat_g := 0%Q; n_sat_fat_g := 0%Q |}).
Proof.
  assert (Hno : forall r, In r [oats_row (to_datetime jan1) 50] ->
                          date r <> to_datetime (jan1 + 1)).
  { intros r [<- | []]. discriminate. }
  split; [exact Hno|].
  apply (@daily_summary_no_entries Q exact _ (jan1 + 1)%Z Hno).
Defined.

(** The weekly roll-up of a small log: two rows on 2024-01-01, one on
    2024-01-03, one eight days earlier; the reference day is 2024-01-04. *)
Example weekly_summary_sample :
  map (fun row => (d_date row, Qred (d_calories row)))
      (snd (weekly_summary
              [oats_row (to_datetime (jan1 + 2)) 100;
               oats_row (to_datetime jan1) 50;
               oats_row (to_datetime (jan1 - 7)) 100;
               oats_row (to_datetime jan1) 50]
              (jan1 + 3)))
  = [(jan1, 379%Q); ((jan1 + 2)%Z, 379%Q)].
Proof. vm_compute. reflexivity. Qed.


(** For that reference day the two aggregates are both empty, although a
    stored date of the log is not a midnight timestamp. *)
Example agree_without_midnight :
  let log := [oats_row (Some (jan1 * ns_per_day + noon)%Z) 50] in
  ~ all_midnight log /\
  fst (daily_summary log jan1) = [] /\
  snd (weekly_summary log jan1) = [].
Proof.
  cbv zeta. split; [|split; vm_compute; reflexivity].
  intros Hmid.
  destruct (Hmid _ (or_introl eq_refl)) as [day Hday].
  unfold to_datetime in Hday. cbn in Hday. injection Hday as Hday.
  unfold jan1, noon, ns_per_day in Hday. lia.
Qed.

(** * The progress bars *)

Section ProgressExact.
Local Open Scope Q_scope.

Lemma Qltb_true (x y : Q) : Qltb x y = true <-> x < y.
Proof.
  unfold Qltb. rewrite negb_true_iff. split.
  - intros Hle. apply Qnot_le_lt. intros Hyx.
    apply Qle_bool_iff in Hyx. congruence.
  - intros Hlt. destruct (Qle_bool y x) eqn:E; [|reflexivity].
    apply Qle_bool_iff in E. exfalso. exact (Qlt_not_le _ _ Hlt E).
Qed.

Lemma Qltb_false (x y : Q) : Qltb x y = false <-> y <= x.
Proof.
  unfold Qltb. rewrite negb_false_iff. apply Qle_bool_iff.
Qed.

Lemma ratio_nonneg (t g : Q) : 0 <= t -> 0 < g -> 0 <= t / g.
Proof.
  intros Ht Hg. apply Qle_shift_div_l; [exact Hg|].
  rewrite Qmult_0_l. exact Ht.
Qed.

(** C4.  For a total [t >= 0] and a goal [g > 0], the value passed to the
    progress bar is [min(1, t / g)]; it lies in the closed interval from 0
    to 1, and is the raw ratio itself whenever that does not exceed 1. *)
Theorem progress_clamped (t g : Q) :
  0 <= t -> 0 < g ->
  progress t g == Qmin 1 (t / g) /\
  0 <= progress t g <= 1 /\
  (t / g <= 1 -> progress t g = t / g) /\
  (1 < t / g -> progress t g = 1).
Proof.
  intros Ht Hg. pose proof (ratio_nonneg Ht Hg) as Hr.
  unfold progress, py_min. cbn [num_lt num_div num_1 exact].
  destruct (Qltb 1 (t / g)) eqn:E.
  - apply Qltb_true in E. split; [|split; [|split]].
    + symmetry. apply Q.min_l. apply Qlt_le_weak, E.
    + split; discriminate.
    + intros Hle. exfalso. exact (Qlt_not_le _ _ E Hle).
    + reflexivity.
  - apply Qltb_false in E. split; [|split; [|split]].
    + symmetry. apply Q.min_r. exact E.
    + split; assumption.
    + reflexivity.
    + intros Hlt. exfalso. exact (Qlt_not_le _ _ Hlt E).
Qed.

Lemma progress_clamped_witness :
  0 <= 1895 # 10 /\ 0 < 1800 /\
  (progress (1895 # 10) 1800 == Qmin 1 ((1895 # 10) / 1800) /\
   0 <= progress (1895 # 10) 1800 <= 1 /\
   ((1895 # 10) / 1800 <= 1 -> progress (1895 # 10) 1800 = (1895 # 10) / 1800) /\
   (1 < (1895 # 10) / 1800 -> progress (1895 # 10) 1800 = 1)).
Proof.
  split; [discriminate|]. split; [reflexivity|].
  apply (@progress_clamped (1895 # 10) 1800); [discriminate | reflexivity].
Defined.

(** The three bars of the Today tab are [progress] on calories, protein_g
    and sat_fat_g. *)
Lemma today_progress_bars (totals : Nutrients Q) (goals : Goals Q) :
  today_progress totals goals
  = (progress (n_calories totals) (g_calories goals),
     progress (n_protein_g totals) (g_protein_g goals),
     progress (n_sat_fat_g totals) (g_sat_fat_g goals)).
Proof. reflexivity. Qed.

(** The scenario of the specification: 189.5 kcal against a goal of 1800
    fills 379/3600 of the bar (about 0.1053); 2000 kcal fills it. *)
Example progress_sample :
  progress (1895 # 10) 1800 == 379 # 3600 /\ progress 2000 1800 == 1.
Proof. split; reflexivity. Qed.

End ProgressExact.

(** * The handlers *)

Section HandlerFacts.
Context {A : Type} `{Num A}.
Local Open Scope list_scope.

(** C8.  Appending an entry returns and saves the old log followed by the
    entry: one row more, every old row at its old position and unchanged,
    the entry last, and the catalogue file untouched.  "Add to log" is this
    append for the entry it builds. *)
Theorem append_entry_frame (log : list (Entry A)) (e : Entry A)
    (fs : Files A) :
  append_entry log e fs
  = (Returns (log ++ [e]),
     {| foods_csv := foods_csv fs; log_csv := log ++ [e] |}) /\
  List.length (log ++ [e]) = S (List.length log) /\
  (forall i, (i < List.length log)%nat ->
             nth_error (log ++ [e]) i = nth_error log i) /\
  nth_error (log ++ [e]) (List.length log) = Some e /\
  firstn (List.length log) (log ++ [e]) = log /\
  (forall log_date food_choice food_row qty,
     add_to_log log log_date food_choice food_row qty fs
     = (Returns (log ++ [new_entry log_date food_choice food_row qty],
                 st_success),
        {| foods_csv := foods_csv fs;
           log_csv := log ++ [new_entry log_date food_choice food_row qty] |})).
Proof.
  split; [reflexivity|].
  split; [rewrite length_app; cbn; lia|].
  split; [intros i Hi; apply nth_error_app1; exact Hi|].
  split.
  { rewrite nth_error_app2 by lia. rewrite Nat.sub_diag. reflexivity. }
  split.
  { rewrite firstn_app, Nat.sub_diag, firstn_all. cbn. apply app_nil_r. }
  intros. reflexivity.
Qed.

(** C5, amended.  The upload of a log validates nothing and never fails:
    whatever rows the uploaded frame holds, it becomes the stored log, and
    the catalogue file is untouched; with nothing uploaded both files stay
    as they are. *)
Theorem upload_log_replaces (fs : Files A) :
  (forall new_log,
     upload_log (Some new_log) fs
     = (Returns (Some st_success),
        {| foods_csv := foods_csv fs; log_csv := new_log |})) /\
  upload_log None fs = (Returns None, fs).
Proof. split; [intros new_log|]; reflexivity. Qed.

Lemma add_food_saved (foods : list (Food A)) (name0 : string)
    (base_amount0 : A) (unit0 : string) (calories0 protein fat sat_fat : A)
    (fs : Files A) :
  truthy (strip name0) = true ->
  add_food foods name0 base_amount0 unit0 calories0 protein fat sat_fat fs
  = (Returns st_success,
     {| foods_csv :=
          foods ++ [ {| name := strip name0; base_amount := base_amount0;
                        unit := unit0; calories := calories0;
                        protein_g := protein; fat_g := fat;
                        sat_fat_g := sat_fat |} ];
        log_csv := log_csv fs |}).
Proof.
  intros Hname. unfold add_food. rewrite Hname. reflexivity.
Qed.

(** C7, amended.  Adding a definition whose (stripped, non-empty) name is
    already in the catalogue succeeds: the saved catalogue is the old one
    followed by the new definition, so it holds the name at least twice and
    its names are not distinct. *)
Theorem add_food_duplicate_name (foods : list (Food A)) (name0 : string)
    (base_amount0 : A) (unit0 : string) (calories0 protein fat sat_fat : A)
    (fs : Files A) :
  truthy (strip name0) = true ->
  In (strip name0) (names foods) ->
  let new_row := {| name := strip name0; base_amount := base_amount0;
                    unit := unit0; calories := calories0;
                    protein_g := protein; fat_g := fat;
                    sat_fat_g := sat_fat |} in
  let res :=
    add_food foods name0 base_amount0 unit0 calories0 protein fat sat_fat fs in
  res = (Returns st_success,
         {| foods_csv := foods ++ [new_row]; log_csv := log_csv fs |}) /\
  ~ NoDup (names (foods_csv (snd res))) /\
  (2 <= count_occ string_dec (names (foods_csv (snd res))) (strip name0))%nat.
Proof.
  intros Hname Hin new_row res. subst res.
  rewrite (add_food_saved foods name0 base_amount0 unit0 calories0 protein
             fat sat_fat fs Hname).
  fold new_row. cbn [snd foods_csv].
  assert (Hnames : names (foods ++ [new_row]) = names foods ++ [strip name0]).
  { unfold names. rewrite map_app. reflexivity. }
  split; [reflexivity|]. rewrite Hnames. split.
  - intros Hnd. apply NoDup_remove_2 in Hnd.
    rewrite app_nil_r in Hnd. contradiction.
  - rewrite count_occ_app. cbn.
    destruct (string_dec (strip name0) (strip name0)) as [_ | Hne];
      [|contradiction].
    apply (count_occ_In string_dec) in Hin. lia.
Qed.

(** An empty name (after stripping) is the one case in which "Add food"
    writes nothing: it shows a warning. *)
Lemma add_food_empty_name (foods : list (Food A)) (name0 : string)
    (base_amount0 : A) (unit0 : string) (calories0 protein fat sat_fat : A)
    (fs : Files A) :
  truthy (strip name0) = false ->
  add_food foods name0 base_amount0 unit0 calories0 protein fat sat_fat fs
  = (Returns st_warning, fs).
Proof.
  intros Hname. unfold add_food. rewrite Hname. reflexivity.
Qed.

End HandlerFacts.

(** C5, as stated, fails: a row with a negative quantity is not rejected;
    the upload returns and the stored log is replaced. *)
Lemma upload_log_not_validated :
  ~ (forall (new_log : list (Entry Q)) (fs : Files Q),
       (exists e, In e new_log /\ ~ valid_entry e) ->
       upload_log (Some new_log) fs = (Raises ValidationError, fs)).
Proof.
  intros Hclaim.
  pose (bad := oats_row (to_datetime jan1) (-(5))).
  assert (Hbad : exists e, In e [bad] /\ ~ valid_entry e).
  { exists bad. split; [left; reflexivity|].
    intros [Hq _]. cbn in Hq. apply Hq. reflexivity. }
  specialize (Hclaim [bad] {| foods_csv := [oats]; log_csv := [] |} Hbad).
  discriminate Hclaim.
Qed.

(** The stored log after that upload is the uploaded frame. *)
Example upload_log_negative_quantity :
  let bad := oats_row (to_datetime jan1) (-(5)) in
  log_csv (snd (upload_log (Some [bad])
                  {| foods_csv := [oats]; log_csv := [] |})) = [bad].
Proof. reflexivity. Qed.

(** C7, as stated, fails: adding a second "Oats" is not refused. *)
Lemma add_food_no_duplicate_check :
  ~ (forall (foods : list (Food Q)) (name0 : string) (base_amount0 : Q)
            (unit0 : string) (calories0 protein fat sat_fat : Q)
            (fs : Files Q),
       In (strip name0) (names foods) ->
       add_food foods name0 base_amount0 unit0 calories0 protein fat sat_fat fs
       = (Raises DuplicateNameError, fs)).
Proof.
  intros Hclaim.
  assert (Hin : In (strip "Oats") (names [oats])) by (left; reflexivity).
  specialize (Hclaim [oats] "Oats"%string 40%Q "g"%string 150%Q 5%Q 3%Q 1%Q
                {| foods_csv := [oats]; log_csv := [] |} Hin).
  discriminate Hclaim.
Qed.

Lemma add_food_duplicate_name_witness :
  truthy (strip "Oats") = true /\
  In (strip "Oats") (names [oats]) /\
  names (foods_csv (snd (add_food [oats] "Oats" 40%Q "g" 150%Q 5%Q 3%Q 1%Q
                           {| foods_csv := [oats]; log_csv := [] |})))
  = ["Oats"%string; "Oats"%string].
Proof.
  assert (Hname : truthy (strip "Oats") = true) by reflexivity.
  assert (Hin : In (strip "Oats") (names [oats])) by (left; reflexivity).
  destruct (@add_food_duplicate_name Q [oats] "Oats"%string 40%Q
              "g"%string 150%Q 5%Q 3%Q 1%Q
              {| foods_csv := [oats]; log_csv := [] |} Hname Hin)
    as (Hres & _ & _).
  split; [exact Hname|]. split; [exact Hin|].
  rewrite Hres. reflexivity.
Defined.

(** [strip] on a name typed with blanks around it, and on a blank name. *)
Example strip_sample :
  strip "  Rolled oats (dry) " = "Rolled oats (dry)"%string /\
  truthy (strip "   ") = false.
Proof. split; reflexivity. Qed.

(** * Further properties of the scaler *)

Section ScalerLinear.
Local Open Scope Q_scope.

(** X1.  Scaling to the base amount itself, the quantity the "Log Food"
    form proposes, gives back the definition's own four values, provided
    the base amount is not zero. *)
Theorem compute_nutrients_base_amount (f : Food Q) :
  ~ base_amount f == 0 ->
  Nutrients_eq (compute_nutrients f (base_amount f))
    {| n_calories := calories f; n_protein_g := protein_g f;
       n_fat_g := fat_g f; n_sat_fat_g := sat_fat_g f |}.
Proof.
  intros Hb. unfold Nutrients_eq. cbn.
  repeat split; field; exact Hb.
Qed.

Lemma compute_nutrients_base_amount_witness :
  ~ base_amount oats == 0 /\
  Nutrients_eq (compute_nutrients oats (base_amount oats))
    {| n_calories := calories oats; n_protein_g := protein_g oats;
       n_fat_g := fat_g oats; n_sat_fat_g := sat_fat_g oats |}.
Proof.
  split; [discriminate|].
  apply (@compute_nutrients_base_amount oats). discriminate.
Defined.

(** With a zero base amount the exact reading of the division gives zero,
    so the hypothesis of X1 is needed. *)
Example compute_nutrients_base_amount_zero :
  n_calories
    (compute_nutrients
       {| name := "Oats"; base_amount := 0; unit := "g"; calories := 379;
          protein_g := 13; fat_g := 7; sat_fat_g := 12 # 10 |} 0) == 0.
Proof. reflexivity. Qed.

(** X2.  The scaler is linear in the quantity: the nutrients of [q1 + q2]
    are the sum of those of [q1] and of [q2], and the nutrients of [k * q]
    are [k] times those of [q]. *)
Theorem compute_nutrients_linear (f : Food Q) (q1 q2 k : Q) :
  Nutrients_eq (compute_nutrients f (q1 + q2))
    (Nutrients_add (compute_nutrients f q1) (compute_nutrients f q2)) /\
  n_calories (compute_nutrients f (k * q1))
    == k * n_calories (compute_nutrients f q1) /\
  n_protein_g (compute_nutrients f (k * q1))
    == k * n_protein_g (compute_nutrients f q1) /\
  n_fat_g (compute_nutrients f (k * q1))
    == k * n_fat_g (compute_nutrients f q1) /\
  n_sat_fat_g (compute_nutrients f (k * q1))
    == k * n_sat_fat_g (compute_nutrients f q1).
Proof.
  unfold Nutrients_eq, Nutrients_add. cbn. unfold Qdiv.
  repeat split; ring.
Qed.

(** Scaled values of a definition without negative entries are not
    negative, for a quantity that is not negative and a positive base
    amount. *)
Lemma scaled_nonneg (c q b : Q) : 0 <= c -> 0 <= q -> 0 < b -> 0 <= c * (q / b).
Proof.
  intros Hc Hq Hb. apply Qmult_le_0_compat; [exact Hc|].
  apply Qle_shift_div_l; [exact Hb|]. rewrite Qmult_0_l. exact Hq.
Qed.

End ScalerLinear.

(** * Sums in exact arithmetic *)

Section ExactSums.
Local Open Scope Q_scope.
Local Open Scope list_scope.

Lemma filter_all {R} (p : R -> bool) (l : list R) :
  (forall x, p x = true) -> filter p l = l.
Proof.
  intros Hp. induction l as [|x l IH]; cbn; [reflexivity|].
  rewrite Hp, IH. reflexivity.
Qed.

Lemma num_sum_exact (l : list Q) : num_sum l = fold_left Qplus l 0.
Proof.
  unfold num_sum. cbn. rewrite filter_all by reflexivity. reflexivity.
Qed.

Lemma fold_left_Qplus_acc (l : list Q) (a : Q) :
  fold_left Qplus l a == a + fold_left Qplus l 0.
Proof.
  revert a. induction l as [|x l IH]; intros a; cbn.
  - ring.
  - rewrite (IH (a + x)), (IH (0 + x)). ring.
Qed.

Lemma num_sum_nil : num_sum (@nil Q) = 0.
Proof. reflexivity. Qed.

Lemma num_sum_cons (x : Q) (l : list Q) : num_sum (x :: l) == x + num_sum l.
Proof.
  rewrite !num_sum_exact. cbn. rewrite fold_left_Qplus_acc. ring.
Qed.

Lemma num_sum_app (l l' : list Q) :
  num_sum (l ++ l') == num_sum l + num_sum l'.
Proof.
  induction l as [|x l IH]; cbn [app].
  - rewrite num_sum_nil. ring.
  - rewrite !num_sum_cons, IH. ring.
Qed.

Lemma num_sum_perm (l l' : list Q) :
  Permutation l l' -> num_sum l == num_sum l'.
Proof.
  induction 1 as [|x l l' _ IH|x y l|l l' l'' _ IH1 _ IH2].
  - reflexivity.
  - rewrite !num_sum_cons, IH. reflexivity.
  - rewrite !num_sum_cons. ring.
  - rewrite IH1. exact IH2.
Qed.

Lemma num_sum_nonneg (l : list Q) :
  (forall x, In x l -> 0 <= x) -> 0 <= num_sum l.
Proof.
  induction l as [|x l IH]; intros Hl.
  - rewrite num_sum_nil. discriminate.
  - rewrite num_sum_cons.
    rewrite <- (Qplus_0_l 0). apply Qplus_le_compat.
    + apply Hl. left. reflexivity.
    + apply IH. intros y Hy. apply Hl. right. exact Hy.
Qed.

Lemma num_sum_ext (R : Type) (g h : R -> Q) (l : list R) :
  (forall x, In x l -> g x == h x) ->
  num_sum (map g l) == num_sum (map h l).
Proof.
  induction l as [|x l IH]; intros Hgh; cbn [map].
  - reflexivity.
  - rewrite !num_sum_cons, IH, (Hgh x).
    + reflexivity.
    + left. reflexivity.
    + intros y Hy. apply Hgh. right. exact Hy.
Qed.

Lemma num_sum_plus (R : Type) (g h : R -> Q) (l : list R) :
  num_sum (map (fun x => g x + h x) l)
  == num_sum (map g l) + num_sum (map h l).
Proof.
  induction l as [|x l IH]; cbn [map].
  - rewrite !num_sum_nil. ring.
  - rewrite !num_sum_cons, IH. ring.
Qed.

Lemma Permutation_filter_keep {R} (p : R -> bool) (l l' : list R) :
  Permutation l l' -> Permutation (filter p l) (filter p l').
Proof.
  induction 1 as [|x l l' _ IH|x y l|l l' l'' _ IH1 _ IH2]; cbn.
  - constructor.
  - destruct (p x); [constructor|]; exact IH.
  - destruct (p x), (p y); try apply Permutation_refl.
    apply perm_swap.
  - eapply Permutation_trans; eassumption.
Qed.

(** X3.  The rows and totals of a day over two logs put end to end: the
    selected rows are those of the first log followed by those of the
    second, and each total is the sum of the two totals. *)
Theorem daily_summary_app (log1 log2 : list (Entry Q)) (day : Z) :
  fst (daily_summary (log1 ++ log2) day)
  = fst (daily_summary log1 day) ++ fst (daily_summary log2 day) /\
  Nutrients_eq (snd (daily_summary (log1 ++ log2) day))
    (Nutrients_add (snd (daily_summary log1 day))
                   (snd (daily_summary log2 day))).
Proof.
  unfold daily_summary, sum_nutrients, Nutrients_eq, Nutrients_add.
  cbn [fst snd n_calories n_protein_g n_fat_g n_sat_fat_g].
  rewrite filter_app. split; [reflexivity|].
  rewrite !map_app. repeat split; apply num_sum_app.
Qed.

(** X4.  The totals of a day do not depend on the order of the rows of the
    log. *)
Theorem daily_summary_perm (log log' : list (Entry Q)) (day : Z) :
  Permutation log log' ->
  Nutrients_eq (snd (daily_summary log day)) (snd (daily_summary log' day)).
Proof.
  intros Hperm. unfold daily_summary, sum_nutrients, Nutrients_eq.
  cbn [snd n_calories n_protein_g n_fat_g n_sat_fat_g].
  pose proof (Permutation_filter_keep
                (fun r : Entry Q => ts_eqb (date r) (to_datetime day)) Hperm)
    as Hsel.
  repeat split; apply num_sum_perm, Permutation_map, Hsel.
Qed.

Lemma daily_summary_perm_witness :
  let a := oats_row (to_datetime jan1) 50 in
  let b := oats_row (to_datetime jan1) 120 in
  Permutation [a; b] [b; a] /\
  Nutrients_eq (snd (daily_summary [a; b] jan1))
               (snd (daily_summary [b; a] jan1)).
Proof.
  cbv zeta. split; [apply perm_swap|].
  apply (@daily_summary_perm _ _ jan1). apply perm_swap.
Defined.

End ExactSums.

(** * Logging and the aggregates *)

Section LoggingFacts.
Context {A : Type} `{Num A}.
Local Open Scope list_scope.

Lemma filter_snoc {R} (p : R -> bool) (l : list R) (x : R) :
  filter p (l ++ [x]) = if p x then filter p l ++ [x] else filter p l.
Proof.
  rewrite filter_app. cbn. destruct (p x); [reflexivity|apply app_nil_r].
Qed.

(** X5.  After "Add to log" for the date [log_date], the stored log gives
    every other day the rows and totals it gave before, and gives
    [log_date] its former rows followed by the new entry. *)
Theorem add_to_log_daily_rows (log : list (Entry A)) (log_date : Z)
    (food_choice : string) (food_row : Food A) (qty : A) (fs : Files A) :
  let log' :=
    log_csv (snd (add_to_log log log_date food_choice food_row qty fs)) in
  (forall day, day <> log_date ->
               daily_summary log' day = daily_summary log day) /\
  fst (daily_summary log' log_date)
  = fst (daily_summary log log_date)
    ++ [new_entry log_date food_choice food_row qty].
Proof.
  intros log'.
  assert (Hlog : log' = log ++ [new_entry log_date food_choice food_row qty])
    by reflexivity.
  rewrite Hlog. clear Hlog log'.
  unfold daily_summary. cbn [fst]. split.
  - intros day Hday. rewrite filter_snoc.
    destruct (ts_eqb _ _) eqn:E; [|reflexivity].
    apply ts_eqb_eq in E. cbn [new_entry date] in E.
    apply to_datetime_inj in E. congruence.
  - rewrite filter_snoc.
    rewrite (proj2 (ts_eqb_to_datetime _ log_date)) by reflexivity.
    reflexivity.
Qed.

(** The rows of the reference day's group are the rows [daily_summary]
    selects for that day, whatever timestamps the log holds. *)
Lemma end_day_group_is_day (log : list (Entry A)) (e : Z) :
  group_rows (fst (weekly_summary log e)) e = fst (daily_summary log e).
Proof.
  cbn [weekly_summary daily_summary fst]. unfold group_rows.
  apply filter_filter_ext. intros r _.
  unfold week_mask, ts_geb, to_datetime, Timedelta_days.
  destruct (date r) as [t|]; cbn [ts_sub ts_leb ts_eqb option_map dt_date
                                  key_eqb]; [|reflexivity].
  destruct (Z.eqb_spec t (e * ns_per_day)) as [-> | Hne].
  - rewrite Z.div_mul by discriminate. rewrite Z.eqb_refl, andb_true_r.
    rewrite andb_true_iff, !Z.leb_le. unfold ns_per_day. lia.
  - destruct (Z.leb_spec t (e * ns_per_day)) as [Hle | Hgt];
      [|rewrite andb_false_r; reflexivity].
    rewrite andb_true_r.
    assert (Hlt : (t / ns_per_day < e)%Z).
    { apply Z.div_lt_upper_bound; [reflexivity|]. lia. }
    destruct (Z.eqb_spec (t / ns_per_day) e) as [Heq | _]; [lia|].
    apply andb_false_r.
Qed.

Lemma sorted_range_length (b : Z) (ks : list Z) :
  StronglySorted Z.lt ks ->
  forall a, (forall k, In k ks -> (a <= k <= b)%Z) ->
            (Z.of_nat (List.length ks) <= Z.max 0 (b - a + 1))%Z.
Proof.
  induction 1 as [|k ks Hs IH Hall]; intros a Hrange.
  - cbn. lia.
  - assert (Hk : (a <= k <= b)%Z) by (apply Hrange; left; reflexivity).
    assert (Htail : forall k', In k' ks -> (k + 1 <= k' <= b)%Z).
    { intros k' Hk'. rewrite Forall_forall in Hall.
      specialize (Hall k' Hk').
      assert ((a <= k' <= b)%Z) by (apply Hrange; right; exact Hk'). lia. }
    specialize (IH (k + 1)%Z Htail).
    cbn [List.length]. lia.
Qed.

(** The calendar day of a timestamp inside the window is one of the seven
    days [d - 6 .. d]. *)
Lemma in_window_day (d : Z) (r : Entry A) (k : Z) :
  in_window d r -> dt_date (date r) = Some k -> (d - 6 <= k <= d)%Z.
Proof.
  intros (t & Ht & Hlo & Hhi) Hk. rewrite Ht in Hk. cbn in Hk.
  injection Hk as <-. split.
  - apply Z.div_le_lower_bound; [reflexivity|]. lia.
  - apply Z.div_le_upper_bound; [reflexivity|]. lia.
Qed.

(** X7.  The weekly roll-up has at most seven rows, and the date of each
    is one of the seven days [d - 6 .. d], on every log. *)
Theorem weekly_summary_at_most_seven (log : list (Entry A)) (d : Z) :
  (List.length (snd (weekly_summary log d)) <= 7)%nat /\
  (forall row, In row (snd (weekly_summary log d)) ->
               (d - 6 <= d_date row <= d)%Z).
Proof.
  assert (Hrange : forall k,
            In k (map (@d_date A) (snd (weekly_summary log d))) ->
            (d - 6 <= k <= d)%Z).
  { intros k Hk. cbn [weekly_summary snd] in Hk.
    apply groupby_date_sum_key in Hk. destruct Hk as (r & Hr & Hday).
    apply filter_In in Hr. destruct Hr as [_ Hmask].
    apply week_mask_spec in Hmask. exact (in_window_day Hmask Hday). }
  split.
  - assert (Hs : StronglySorted Z.lt
                   (map (@d_date A) (snd (weekly_summary log d)))).
    { cbn [weekly_summary snd]. rewrite groupby_date_sum_dates.
      apply group_keys_sorted. }
    pose proof (@sorted_range_length d _ Hs (d - 6)%Z Hrange) as Hlen.
    rewrite length_map in Hlen. lia.
  - intros row Hrow. apply Hrange, in_map, Hrow.
Qed.

End LoggingFacts.

(** * The weekly roll-up in exact arithmetic *)

Section WeeklyExact.
Local Open Scope Q_scope.
Local Open Scope list_scope.

Lemma num_sum_Qsum (l : list Q) : num_sum l == Qsum l.
Proof.
  induction l as [|x l IH]; [reflexivity|].
  rewrite num_sum_cons, IH. reflexivity.
Qed.

(** The mask of line 69 is the window test. *)
Lemma week_mask_in_windowb {A} `{Num A} (d : Z) (r : Entry A) :
  week_mask d r = in_windowb d r.
Proof.
  unfold week_mask, in_windowb, ts_geb, to_datetime, Timedelta_days.
  destruct (date r) as [t|]; cbn [ts_sub ts_leb option_map];
    [|reflexivity].
  replace (d * ns_per_day - 6 * ns_per_day)%Z
    with ((d - 6) * ns_per_day)%Z by ring.
  reflexivity.
Qed.

(** The group key of a timestamp is [k] when the timestamp lies from
    midnight of day [k] up to the next midnight. *)
Lemma key_on_day (t k : Z) :
  key_eqb (dt_date (Some t)) k
  = ((k * ns_per_day <=? t) && (t <? (k + 1) * ns_per_day))%Z.
Proof.
  cbn [dt_date option_map key_eqb].
  pose proof (Z.mod_pos_bound t ns_per_day eq_refl) as Hbound.
  pose proof (Z.div_mod t ns_per_day) as Hdiv.
  assert (Ht : (t = ns_per_day * (t / ns_per_day) + t mod ns_per_day)%Z)
    by (apply Hdiv; discriminate).
  clear Hdiv. unfold ns_per_day in *.
  destruct (Z.eqb_spec (t / 86400000000000) k) as [Heq | Hne];
    destruct (Z.leb_spec (k * 86400000000000) t);
    destruct (Z.ltb_spec t ((k + 1) * 86400000000000));
    cbn; try reflexivity; exfalso; lia.
Qed.

(** The rows behind a row of the roll-up, read off the log. *)
Lemma group_rows_kept {A} `{Num A} (log : list (Entry A)) (d k : Z) :
  group_rows (fst (weekly_summary log d)) k = filter (kept_on_day d k) log.
Proof.
  cbn [weekly_summary fst]. unfold group_rows.
  apply filter_filter_ext. intros r _.
  unfold kept_on_day. rewrite week_mask_in_windowb.
  destruct (date r) as [t|] eqn:E.
  - rewrite key_on_day. reflexivity.
  - reflexivity.
Qed.



(** The roll-up of a log with a row at noon of the reference day and two
    rows on the day before: the noon row is left out, the other two are
    added up. *)
Example weekly_summary_rollup_sample :
  map (fun row => (d_date row, Qred (d_calories row)))
      (snd (weekly_summary
              [oats_row (to_datetime (jan1 - 1)) 50;
               oats_row (Some (jan1 * ns_per_day + noon)%Z) 100;
               oats_row (Some ((jan1 - 1) * ns_per_day + noon)%Z) 50]
              jan1))
  = [((jan1 - 1)%Z, 379%Q)].
Proof. vm_compute. reflexivity. Qed.




(** X6.  On every log, whatever times of day it holds, the rows
    [daily_summary] selects for the reference day are the rows the roll-up
    counts under that day; in exact arithmetic the roll-up's row for the
    reference day, when there is one, and the daily totals of that day
    both hold the sums of calories, protein_g and sat_fat_g of those rows;
    and there is such a row exactly when some row of the log is dated
    midnight of the reference day. *)
Theorem weekly_end_day_row (log : list (Entry Q)) (e : Z) :
  let day_df := fst (daily_summary log e) in
  let totals := snd (daily_summary log e) in
  day_df = filter (kept_on_day e e) log /\
  (forall row, In row (snd (weekly_summary log e)) -> d_date row = e ->
     (d_calories row == Qsum (map (@e_calories Q) day_df) /\
      n_calories totals == Qsum (map (@e_calories Q) day_df)) /\
     (d_protein_g row == Qsum (map (@e_protein_g Q) day_df) /\
      n_protein_g totals == Qsum (map (@e_protein_g Q) day_df)) /\
     (d_sat_fat_g row == Qsum (map (@e_sat_fat_g Q) day_df) /\
      n_sat_fat_g totals == Qsum (map (@e_sat_fat_g Q) day_df))) /\
  (In e (map (@d_date Q) (snd (weekly_summary log e)))
   <-> exists r, In r log /\ date r = to_datetime e).
Proof.
  intros day_df totals.
  pose proof (end_day_group_is_day log e) as Hgroup. fold day_df in Hgroup.
  split; [rewrite <- Hgroup; apply group_rows_kept|].
  split.
  - intros row Hrow He.
    cbn [weekly_summary snd] in Hrow. apply groupby_date_sum_row in Hrow.
    rewrite He in Hrow. cbn [weekly_summary fst] in Hgroup.
    rewrite Hgroup in Hrow. rewrite Hrow.
    cbn [d_calories d_protein_g d_sat_fat_g].
    repeat split; apply num_sum_Qsum.
  - cbn [weekly_summary snd]. rewrite groupby_date_sum_key. split.
    + intros (r & Hr & Hday).
      assert (Hin : In r (group_rows (fst (weekly_summary log e)) e))
        by (apply group_rows_In; auto).
      rewrite Hgroup in Hin. unfold day_df in Hin.
      cbn [daily_summary fst] in Hin.
      apply filter_In in Hin. destruct Hin as [Hlog Heq].
      exists r. split; [exact Hlog|]. apply ts_eqb_eq, Heq.
    + intros (r & Hr & Hdate).
      assert (Hin : In r day_df).
      { unfold day_df. cbn [daily_summary fst]. apply filter_In.
        split; [exact Hr|]. apply ts_eqb_to_datetime, Hdate. }
      rewrite <- Hgroup in Hin.
      apply group_rows_In in Hin. exists r. exact Hin.
Qed.

End WeeklyExact.

(** * Totals in exact arithmetic *)

Section ExactTotals.
Local Open Scope Q_scope.
Local Open Scope list_scope.

Lemma num_sum_single (x : Q) : num_sum [x] == x.
Proof. rewrite num_sum_cons, num_sum_nil. ring. Qed.

(** X8.  "Add to log" raises the totals of the logged day by exactly the
    scaled nutrients of the entry. *)
Theorem add_to_log_daily_totals (log : list (Entry Q)) (log_date : Z)
    (food_choice : string) (food_row : Food Q) (qty : Q) (fs : Files Q) :
  let log' :=
    log_csv (snd (add_to_log log log_date food_choice food_row qty fs)) in
  Nutrients_eq (snd (daily_summary log' log_date))
    (Nutrients_add (snd (daily_summary log log_date))
                   (compute_nutrients food_row qty)).
Proof.
  intros log'.
  assert (Hlog : log' = log ++ [new_entry log_date food_choice food_row qty])
    by reflexivity.
  rewrite Hlog. clear Hlog log'.
  unfold daily_summary, sum_nutrients, Nutrients_eq, Nutrients_add.
  cbn [snd n_calories n_protein_g n_fat_g n_sat_fat_g].
  rewrite filter_snoc.
  replace (ts_eqb (date (new_entry log_date food_choice food_row qty))
                  (to_datetime log_date)) with true
    by (symmetry; apply ts_eqb_to_datetime; reflexivity).
  rewrite !map_app. cbn [map].
  repeat split; rewrite num_sum_app, num_sum_single; reflexivity.
Qed.

Lemma num_sum_zero {R} (l : list R) : num_sum (map (fun _ => 0) l) == 0.
Proof.
  induction l as [|x l IH]; cbn [map].
  - reflexivity.
  - rewrite num_sum_cons, IH. ring.
Qed.

Lemma delta_sum_absent (x : Q) (k0 : Z) (ks : list Z) :
  ~ In k0 ks ->
  num_sum (map (fun k => if (k0 =? k)%Z then x else 0) ks) == 0.
Proof.
  induction ks as [|k ks IH]; intros Hnot; cbn [map].
  - reflexivity.
  - rewrite num_sum_cons.
    destruct (Z.eqb_spec k0 k) as [-> | _].
    + exfalso. apply Hnot. left. reflexivity.
    + rewrite IH; [ring|]. intros Hin. apply Hnot. right. exact Hin.
Qed.

Lemma delta_sum_present (x : Q) (k0 : Z) (ks : list Z) :
  NoDup ks -> In k0 ks ->
  num_sum (map (fun k => if (k0 =? k)%Z then x else 0) ks) == x.
Proof.
  induction 1 as [|k ks Hk Hnd IH]; intros Hin; [destruct Hin|].
  cbn [map]. rewrite num_sum_cons.
  destruct (Z.eqb_spec k0 k) as [-> | Hne].
  - rewrite delta_sum_absent by exact Hk. ring.
  - destruct Hin as [Heq | Hin]; [congruence|].
    rewrite IH by exact Hin. ring.
Qed.

Lemma group_rows_cons (r : Entry Q) (w : list (Entry Q)) (k0 k : Z) :
  dt_date (date r) = Some k0 ->
  group_rows (r :: w) k
  = if (k0 =? k)%Z then r :: group_rows w k else group_rows w k.
Proof.
  intros Hk. unfold group_rows. cbn [filter]. rewrite Hk. reflexivity.
Qed.

(** Summing a column group by group gives the sum of the column, when the
    keys are distinct and every row has one of them. *)
Lemma group_sum_total (f : Entry Q -> Q) (ks : list Z) (w : list (Entry Q)) :
  NoDup ks ->
  (forall r, In r w -> exists k, In k ks /\ dt_date (date r) = Some k) ->
  num_sum (map (fun k => num_sum (map f (group_rows w k))) ks)
  == num_sum (map f w).
Proof.
  intros Hnd. induction w as [|r w IH]; intros Hkeys.
  - cbn [group_rows filter map]. rewrite num_sum_nil. apply num_sum_zero.
  - destruct (Hkeys r (or_introl eq_refl)) as (k0 & Hk0 & Hday).
    rewrite (num_sum_ext
               (fun k => num_sum (map f (group_rows (r :: w) k)))
               (fun k => (if (k0 =? k)%Z then f r else 0)
                         + num_sum (map f (group_rows w k)))).
    + rewrite num_sum_plus, delta_sum_present by assumption.
      rewrite IH by (intros r' Hr'; apply Hkeys; right; exact Hr').
      cbn [map]. rewrite num_sum_cons. reflexivity.
    + intros k _. rewrite (@group_rows_cons r w k0 k Hday).
      destruct (k0 =? k)%Z; cbn [map]; [apply num_sum_cons | ring].
Qed.

(** X9.  The roll-up loses and invents nothing: the calories of its rows
    add up to the calories of the rows kept for the week, and so do
    protein_g and sat_fat_g. *)
Theorem weekly_rows_sum (log : list (Entry Q)) (d : Z) :
  let week := fst (weekly_summary log d) in
  let by_day := snd (weekly_summary log d) in
  num_sum (map (@d_calories Q) by_day) == num_sum (map (@e_calories Q) week) /\
  num_sum (map (@d_protein_g Q) by_day)
    == num_sum (map (@e_protein_g Q) week) /\
  num_sum (map (@d_sat_fat_g Q) by_day)
    == num_sum (map (@e_sat_fat_g Q) week).
Proof.
  cbn [weekly_summary fst snd]. unfold groupby_date_sum.
  set (week := filter (week_mask d) log).
  set (ks := group_keys (map (fun r : Entry Q => dt_date (date r)) week)).
  assert (Hnd : NoDup ks) by apply StronglySorted_lt_NoDup, group_keys_sorted.
  assert (Hkeys : forall r, In r week ->
                    exists k, In k ks /\ dt_date (date r) = Some k).
  { intros r Hr. pose proof Hr as Hw. apply filter_In in Hw.
    destruct Hw as [_ Hmask]. apply week_mask_spec in Hmask.
    destruct Hmask as (t & Ht & _).
    exists (t / ns_per_day)%Z. split; [|rewrite Ht; reflexivity].
    apply group_keys_In, in_map_iff. exists r.
    split; [rewrite Ht; reflexivity | exact Hr]. }
  rewrite !map_map. cbn [d_calories d_protein_g d_sat_fat_g].
  repeat split; apply group_sum_total; assumption.
Qed.

Lemma py_min_unit_interval (x : Q) : 0 <= x -> 0 <= py_min x 1 <= 1.
Proof.
  intros Hx. unfold py_min. cbn [num_lt exact].
  destruct (Qltb 1 x) eqn:E.
  - split; discriminate.
  - apply Qltb_false in E. split; assumption.
Qed.

(** X10.  "Add to log" keeps the log free of negative nutrient values: for
    a definition without negative values and with a positive base amount,
    and a quantity that is not negative (the bounds of the two forms), the
    new entry has none, and neither has the stored log if the old log had
    none. *)
Theorem add_to_log_nonneg (log : list (Entry Q)) (log_date : Z)
    (food_choice : string) (food_row : Food Q) (qty : Q) (fs : Files Q) :
  0 < base_amount food_row -> 0 <= qty ->
  0 <= calories food_row -> 0 <= protein_g food_row ->
  0 <= fat_g food_row -> 0 <= sat_fat_g food_row ->
  (forall e, In e log -> nonneg_entry e) ->
  forall e,
    In e (log_csv (snd (add_to_log log log_date food_choice food_row qty fs)))
    -> nonneg_entry e.
Proof.
  intros Hb Hq Hc Hp Hf Hs Hlog e He.
  change (In e (log ++ [new_entry log_date food_choice food_row qty])) in He.
  apply in_app_or in He. destruct He as [He | [<- | []]].
  - apply Hlog, He.
  - unfold nonneg_entry. cbn. repeat split; apply scaled_nonneg; assumption.
Qed.

Lemma add_to_log_nonneg_witness :
  (0 < base_amount oats /\ 0 <= 120) /\
  (forall e,
     In e (log_csv (snd (add_to_log [oats_row (to_datetime jan1) 50] jan1
                           "Oats" oats 120
                           {| foods_csv := [oats]; log_csv := [] |})))
     -> nonneg_entry e).
Proof.
  split; [split; [reflexivity | discriminate]|].
  apply (@add_to_log_nonneg [oats_row (to_datetime jan1) 50] jan1 "Oats"%string
           oats 120 {| foods_csv := [oats]; log_csv := [] |});
    try reflexivity; try discriminate.
  intros e [<- | []]. unfold nonneg_entry. cbn. repeat split; discriminate.
Defined.

(** X11.  On a log free of negative nutrient values the totals of every
    day are not negative, and for positive goals the three progress values
    of the Today tab lie between 0 and 1. *)
Theorem nonneg_log_progress (log : list (Entry Q)) (day : Z) (goals : Goals Q) :
  (forall e, In e log -> nonneg_entry e) ->
  0 < g_calories goals -> 0 < g_protein_g goals -> 0 < g_sat_fat_g goals ->
  let totals := snd (daily_summary log day) in
  (0 <= n_calories totals /\ 0 <= n_protein_g totals /\
   0 <= n_fat_g totals /\ 0 <= n_sat_fat_g totals) /\
  (let '(c, p, s) := today_progress totals goals in
   0 <= c <= 1 /\ 0 <= p <= 1 /\ 0 <= s <= 1).
Proof.
  intros Hlog Hgc Hgp Hgs totals.
  assert (Hcol : forall f : Entry Q -> Q,
            (forall e, nonneg_entry e -> 0 <= f e) ->
            0 <= num_sum (map f (fst (daily_summary log day)))).
  { intros f Hf. apply num_sum_nonneg. intros x Hx.
    apply in_map_iff in Hx. destruct Hx as (e & <- & He).
    cbn [daily_summary fst] in He. apply filter_In in He.
    apply Hf, Hlog, He. }
  assert (Hc : 0 <= n_calories totals) by (apply Hcol; intros e He; apply He).
  assert (Hp : 0 <= n_protein_g totals) by (apply Hcol; intros e He; apply He).
  assert (Hf : 0 <= n_fat_g totals) by (apply Hcol; intros e He; apply He).
  assert (Hs : 0 <= n_sat_fat_g totals) by (apply Hcol; intros e He; apply He).
  split; [repeat split; assumption|].
  unfold today_progress, progress. cbn [num_div num_1 exact].
  repeat split; apply py_min_unit_interval || apply py_min_unit_interval;
    apply ratio_nonneg; assumption.
Qed.

Lemma nonneg_log_progress_witness :
  let log := [oats_row (to_datetime jan1) 50] in
  let goals := {| g_calories := 1800; g_protein_g := 120;
                  g_sat_fat_g := 20 |} in
  (forall e, In e log -> nonneg_entry e) /\
  (let totals := snd (daily_summary log jan1) in
   (0 <= n_calories totals /\ 0 <= n_protein_g totals /\
    0 <= n_fat_g totals /\ 0 <= n_sat_fat_g totals) /\
   (let '(c, p, s) := today_progress totals goals in
    0 <= c <= 1 /\ 0 <= p <= 1 /\ 0 <= s <= 1)).
Proof.
  cbv zeta.
  assert (Hlog : forall e, In e [oats_row (to_datetime jan1) 50] ->
                           nonneg_entry e).
  { intros e [<- | []]. unfold nonneg_entry. cbn. repeat split; discriminate. }
  split; [exact Hlog|].
  apply (@nonneg_log_progress [oats_row (to_datetime jan1) 50] jan1
           {| g_calories := 1800; g_protein_g := 120; g_sat_fat_g := 20 |}
           Hlog); reflexivity.
Defined.

End ExactTotals.

(** * The catalogue *)

Section CatalogueFacts.
Context {A : Type}.
Local Open Scope list_scope.

Lemma food_row_of_cons (f : Food A) (foods : list (Food A)) (c : string) :
  food_row_of (f :: foods) c
  = if String.eqb (name f) c then Some f else food_row_of foods c.
Proof.
  unfold food_row_of. cbn [filter]. destruct (String.eqb (name f) c); reflexivity.
Qed.

Lemma food_row_of_None (foods : list (Food A)) (c : string) :
  food_row_of foods c = None <-> ~ In c (names foods).
Proof.
  induction foods as [|f foods IH]; cbn [names map In].
  - split; [tauto | reflexivity].
  - rewrite food_row_of_cons.
    destruct (String.eqb_spec (name f) c) as [Heq | Hne].
    + split; [discriminate|]. intros Hnot. exfalso. apply Hnot. left. exact Heq.
    + rewrite IH. unfold names. tauto.
Qed.

Lemma food_row_of_snoc (foods : list (Food A)) (f : Food A) (c : string) :
  food_row_of (foods ++ [f]) c
  = match food_row_of foods c with
    | Some row => Some row
    | None => if String.eqb (name f) c then Some f else None
    end.
Proof.
  induction foods as [|f' foods IH]; cbn [app].
  - rewrite food_row_of_cons. reflexivity.
  - rewrite !food_row_of_cons. destruct (String.eqb (name f') c); [reflexivity|].
    exact IH.
Qed.

(** X12.  The food selected for a name is the first definition of the
    catalogue with that name: everything before it has another name.  A
    name of the catalogue always selects a row; a name that is not in the
    catalogue selects none (the [IndexError] of [.iloc[0]]), as does every
    name on an empty catalogue. *)
Theorem food_row_of_first (foods : list (Food A)) (c : string) :
  (In c (names foods) ->
   exists row before after,
     food_row_of foods c = Some row /\
     foods = before ++ row :: after /\
     name row = c /\ ~ In c (names before)) /\
  (~ In c (names foods) -> food_row_of foods c = None) /\
  food_row_of (@nil (Food A)) c = None.
Proof.
  split; [|split; [apply food_row_of_None | reflexivity]].
  induction foods as [|f foods IH]; cbn [names map In]; [tauto|].
  intros Hin. rewrite food_row_of_cons.
  destruct (String.eqb_spec (name f) c) as [Heq | Hne].
  - exists f, [], foods. cbn. auto.
  - destruct Hin as [Heq | Hin]; [contradiction|].
    destruct (IH Hin) as (row & before & after & Hsel & Hsplit & Hname & Hnot).
    exists row, (f :: before), after.
    split; [exact Hsel|]. split; [rewrite Hsplit; reflexivity|].
    split; [exact Hname|].
    cbn [names map In]. intros [Heq | Hb]; [contradiction|].
    apply Hnot, Hb.
Qed.

(** X13.  What "Add food" changes for the selector of the next run, whose
    catalogue is [foods.csv] read back through the cleared cache, provided
    the file reads back as the frame that was saved ([read_csv] does not do
    so for every frame: it takes a name such as "NA" for a missing value).
    No other name selects a different row than before; a name that was new
    selects the added definition; a name that was already in the catalogue
    goes on selecting the earlier definition, a row of the old catalogue,
    so the added one is never selected. *)
Theorem add_food_lookup (Bytes : Type) (to_csv : list (Food A) -> Bytes)
    (read_csv : Bytes -> list (Food A)) (seed : list (Food A))
    (s : Cached.Store (list (Food A)) Bytes)
    (foods : list (Food A)) (name0 : string)
    (base_amount0 : A) (unit0 : string) (calories0 protein fat sat_fat : A)
    (fs : Files A) :
  truthy (strip name0) = true ->
  let new_row := {| name := strip name0; base_amount := base_amount0;
                    unit := unit0; calories := calories0;
                    protein_g := protein; fat_g := fat;
                    sat_fat_g := sat_fat |} in
  let saved :=
    foods_csv (snd (add_food foods name0 base_amount0 unit0 calories0
                      protein fat sat_fat fs)) in
  read_csv (to_csv saved) = saved ->
  let foods' :=
    fst (Cached.load_foods to_csv read_csv seed
           (Cached.save_foods to_csv saved s)) in
  (forall c, c <> strip name0 -> food_row_of foods' c = food_row_of foods c) /\
  (In (strip name0) (names foods) ->
   food_row_of foods' (strip name0) = food_row_of foods (strip name0) /\
   exists row, food_row_of foods' (strip name0) = Some row /\ In row foods) /\
  (~ In (strip name0) (names foods) ->
   food_row_of foods' (strip name0) = Some new_row).
Proof.
  intros Hname new_row saved Hread foods'.
  assert (Hfoods : foods' = foods ++ [new_row]).
  { unfold foods'. cbn [Cached.load_foods Cached.save_foods Cached.cache
                        Cached.foods_path fst].
    rewrite Hread. unfold saved.
    rewrite (add_food_saved foods name0 base_amount0 unit0 calories0 protein
               fat sat_fat fs Hname). reflexivity. }
  rewrite Hfoods. clear Hfoods foods' Hread.
  split; [|split].
  - intros c Hc. rewrite food_row_of_snoc.
    destruct (food_row_of foods c); [reflexivity|].
    cbn [name new_row].
    destruct (String.eqb_spec (strip name0) c); [congruence | reflexivity].
  - intros Hin. rewrite food_row_of_snoc.
    destruct (food_row_of foods (strip name0)) as [row|] eqn:E.
    + split; [reflexivity|]. exists row. split; [reflexivity|].
      unfold food_row_of in E.
      assert (Hrow : In row
                (filter (fun f => String.eqb (name f) (strip name0)) foods)).
      { destruct (filter _ foods); [discriminate|].
        injection E as ->. left. reflexivity. }
      apply filter_In in Hrow. apply Hrow.
    + apply food_row_of_None in E. contradiction.
  - intros Hnot. rewrite food_row_of_snoc.
    rewrite (proj2 (food_row_of_None foods (strip name0)) Hnot).
    cbn [name new_row]. rewrite String.eqb_refl. reflexivity.
Qed.

End CatalogueFacts.

Lemma add_food_lookup_witness :
  let fs := {| foods_csv := [oats]; log_csv := [] |} in
  let saved :=
    foods_csv (snd (add_food [oats] " Rice " 100%Q "g" 130%Q 3%Q 0%Q 0%Q fs)) in
  let s := {| Cached.foods_path := Some [oats]; Cached.cache := Some [oats] |} in
  truthy (strip " Rice ") = true /\
  (fun b : list (Food Q) => b) ((fun df : list (Food Q) => df) saved) = saved /\
  food_row_of
    (fst (Cached.load_foods (fun df => df) (fun b => b) []
            (Cached.save_foods (fun df => df) saved s)))
    "Rice"
  = Some {| name := "Rice"; base_amount := 100%Q; unit := "g";
            calories := 130%Q; protein_g := 3%Q; fat_g := 0%Q;
            sat_fat_g := 0%Q |}.
Proof.
  cbv zeta.
  assert (Hname : truthy (strip " Rice ") = true) by reflexivity.
  split; [exact Hname|]. split; [reflexivity|].
  destruct (@add_food_lookup Q (list (Food Q)) (fun df => df) (fun b => b) []
              {| Cached.foods_path := Some [oats];
                 Cached.cache := Some [oats] |}
              [oats] " Rice "%string 100%Q "g"%string 130%Q
              3%Q 0%Q 0%Q {| foods_csv := [oats]; log_csv := [] |} Hname
              eq_refl)
    as (_ & _ & Hnew).
  apply Hnew. cbn. intros [Heq | []]. discriminate Heq.
Defined.

(** * Names *)

Section StripFacts.
Local Open Scope string_scope.

Lemma all_space_app (a b : string) :
  all_space (a ++ b) = all_space a && all_space b.
Proof.
  induction a as [|c a IH]; cbn; [reflexivity|].
  rewrite IH. apply andb_assoc.
Qed.

Lemma append_empty_r (s : string) : s ++ "" = s.
Proof. induction s as [|c s IH]; cbn; [reflexivity|]. now rewrite IH. Qed.

Lemma append_assoc (a b c : string) : (a ++ b) ++ c = a ++ (b ++ c).
Proof. induction a as [|x a IH]; cbn; [reflexivity|]. now rewrite IH. Qed.

Lemma lstrip_split (s : string) :
  exists l, s = l ++ lstrip s /\ all_space l = true /\
            is_space_char (first_char (lstrip s)) = false.
Proof.
  induction s as [|c s IH]; cbn [lstrip].
  - exists "". auto.
  - destruct (is_space c) eqn:E.
    + destruct IH as (l & Hs & Hl & Hfirst).
      exists (String c l). cbn. rewrite E, Hl, <- Hs.
      repeat split; auto.
    + exists "". cbn. repeat split; auto.
Qed.

Lemma rstrip_split (s : string) :
  exists r, s = rstrip s ++ r /\ all_space r = true /\
            is_space_char (last_char (rstrip s)) = false.
Proof.
  induction s as [|c s IH]; cbn [rstrip].
  - exists "". auto.
  - destruct IH as (r & Hs & Hr & Hlast).
    destruct (rstrip s) as [|c' t] eqn:E.
    + destruct (is_space c) eqn:Ec.
      * exists (String c r). cbn in *. rewrite Ec, Hr, <- Hs.
        repeat split; reflexivity.
      * exists r. cbn in *. subst r. rewrite Ec. repeat split; auto.
    + exists r. split; [cbn; f_equal; exact Hs|].
      split; [exact Hr|]. exact Hlast.
Qed.

Lemma rstrip_first (s : string) :
  is_space_char (first_char s) = false ->
  is_space_char (first_char (rstrip s)) = false.
Proof.
  destruct s as [|c s]; cbn [rstrip first_char is_space_char]; [reflexivity|].
  intros Hc. destruct (rstrip s); [rewrite Hc|]; cbn; auto.
Qed.

Lemma lstrip_id (s : string) :
  is_space_char (first_char s) = false -> lstrip s = s.
Proof.
  destruct s as [|c s]; cbn; [reflexivity|]. intros ->. reflexivity.
Qed.

Lemma rstrip_id (s : string) :
  is_space_char (last_char s) = false -> rstrip s = s.
Proof.
  induction s as [|c s IH]; [reflexivity|].
  cbn [rstrip last_char]. destruct s as [|c' s'].
  - cbn. intros ->. reflexivity.
  - intros Hlast. rewrite (IH Hlast). reflexivity.
Qed.

(** X14.  [strip] removes whitespace from the two ends and nothing else:
    the argument is the result between two runs of whitespace, the result
    neither begins nor ends with whitespace, stripping it again changes
    nothing, and it is empty exactly when the argument is whitespace only;
    that is the one case in which "Add food" saves nothing.  The name "Add
    food" saves is the stripped one. *)
Theorem strip_spec (s : string) :
  (exists l r, s = l ++ strip s ++ r /\
               all_space l = true /\ all_space r = true) /\
  is_space_char (first_char (strip s)) = false /\
  is_space_char (last_char (strip s)) = false /\
  strip (strip s) = strip s /\
  (truthy (strip s) = false <-> all_space s = true) /\
  (forall (foods : list (Food Q)) b u c p f sf fs,
     truthy (strip s) = true ->
     names (foods_csv (snd (add_food foods s b u c p f sf fs)))
     = (names foods ++ [strip s])%list).
Proof.
  destruct (lstrip_split s) as (l & Hs & Hl & Hfirst).
  destruct (rstrip_split (lstrip s)) as (r & Hs' & Hr & Hlast).
  assert (Hsplit : s = l ++ strip s ++ r).
  { unfold strip. rewrite <- Hs'. exact Hs. }
  assert (Hf : is_space_char (first_char (strip s)) = false)
    by (apply rstrip_first, Hfirst).
  split; [exists l, r; auto|].
  split; [exact Hf|]. split; [exact Hlast|].
  split.
  { unfold strip at 1. rewrite (lstrip_id _ Hf). apply rstrip_id, Hlast. }
  split.
  { split.
    - intros Hempty. rewrite Hsplit, !all_space_app, Hl, Hr.
      destruct (strip s); [reflexivity | discriminate].
    - intros Hall. rewrite Hsplit, !all_space_app in Hall.
      apply andb_true_iff in Hall. destruct Hall as [_ Hall].
      apply andb_true_iff in Hall. destruct Hall as [Hall _].
      destruct (strip s) as [|c t]; [reflexivity|].
      cbn in Hf, Hall. rewrite Hf in Hall. discriminate. }
  intros foods b u c p f sf fs Hname.
  rewrite (add_food_saved foods s b u c p f sf fs Hname).
  cbn [snd foods_csv]. unfold names. rewrite map_app. reflexivity.
Qed.

End StripFacts.

(** * Further properties of the progress bars *)

(** X15.  In binary64 the value passed to a progress bar is never above
    1.0, whatever the total and the goal, infinities and NaN included; a
    NaN total is not caught by the clamp and comes out as NaN. *)
Theorem progress_float64_at_most_one (total goal : float) :
  PrimFloat.ltb 1 (progress total goal) = false /\
  (is_NaN total -> is_NaN (progress total goal)).
Proof.
  unfold progress, py_min. cbn [num_lt num_div num_1 float64].
  split.
  - destruct (PrimFloat.ltb 1 (total / goal)) eqn:E; [reflexivity | exact E].
  - unfold is_NaN. intros Hnan.
    assert (Hdiv : Prim2SF (total / goal) = S754_nan).
    { rewrite div_spec, Hnan. reflexivity. }
    assert (Hlt : PrimFloat.ltb 1 (total / goal) = false).
    { rewrite ltb_spec, Hdiv. reflexivity. }
    rewrite Hlt. exact Hdiv.
Qed.

Section ProgressMore.
Local Open Scope Q_scope.

(** X16.  For a positive goal the bar is full exactly when the total has
    reached the goal, it never goes down when the total goes up, and a
    negative total is not clamped: the value is negative. *)
Theorem progress_full_iff (t t' g : Q) :
  0 < g ->
  (progress t g == 1 <-> g <= t) /\
  (t <= t' -> progress t g <= progress t' g) /\
  (t < 0 -> progress t g < 0).
Proof.
  intros Hg.
  assert (Hratio : forall x, g <= x <-> 1 <= x / g).
  { intros x. split; intros Hx.
    - apply Qle_shift_div_l; [exact Hg|]. rewrite Qmult_1_l. exact Hx.
    - rewrite <- (Qmult_1_l g).
      setoid_replace x with (x / g * g) by (field; intros E; rewrite E in Hg;
                                            discriminate Hg).
      apply Qmult_le_compat_r; [exact Hx | apply Qlt_le_weak, Hg]. }
  assert (Hmin : forall x, progress x g == Qmin 1 (x / g)).
  { intros x. unfold progress, py_min. cbn [num_lt num_div num_1 exact].
    destruct (Qltb 1 (x / g)) eqn:E.
    - apply Qltb_true in E. symmetry. apply Q.min_l, Qlt_le_weak, E.
    - apply Qltb_false in E. symmetry. apply Q.min_r, E. }
  split; [|split].
  - rewrite Hmin, Hratio. split.
    + intros Heq. rewrite <- Heq. apply Q.le_min_r.
    + intros Hle. apply Q.min_l, Hle.
  - intros Hle. rewrite !Hmin.
    apply Q.min_le_compat_l.
    unfold Qdiv. apply Qmult_le_compat_r; [exact Hle|].
    apply Qlt_le_weak, Qinv_lt_0_compat, Hg.
  - intros Ht. rewrite Hmin.
    apply Qle_lt_trans with (t / g); [apply Q.le_min_r|].
    apply Qlt_shift_div_r; [exact Hg|]. rewrite Qmult_0_l. exact Ht.
Qed.

Lemma progress_full_iff_witness :
  0 < 1800 /\
  ((progress 2000 1800 == 1 <-> 1800 <= 2000) /\
   (2000 <= 2500 -> progress 2000 1800 <= progress 2500 1800) /\
   (2000 < 0 -> progress 2000 1800 < 0)).
Proof.
  split; [reflexivity|].
  apply (@progress_full_iff 2000 2500 1800). reflexivity.
Defined.

End ProgressMore.

(** * The cached catalogue *)

Section CachedFacts.
Variables Frame Bytes : Type.
Variable to_csv : Frame -> Bytes.
Variable read_csv : Bytes -> Frame.
Variable seed : Frame.

Lemma load_foods_coherent (s : Cached.Store Frame Bytes) :
  Cached.coherent read_csv s ->
  Cached.coherent read_csv (snd (Cached.load_foods to_csv read_csv seed s)).
Proof.
  intros Hs. unfold Cached.load_foods.
  destruct (Cached.cache s) as [df|] eqn:E; cbn [snd]; [exact Hs|].
  intros df Hdf. cbn in Hdf. injection Hdf as <-.
  eexists. split; reflexivity.
Qed.

Lemma save_foods_coherent (df : Frame) (s : Cached.Store Frame Bytes) :
  Cached.coherent read_csv (Cached.save_foods to_csv df s).
Proof. intros df' Hdf'. discriminate Hdf'. Qed.

Lemma run_coherent (calls : list (Cached.call Frame))
    (s : Cached.Store Frame Bytes) :
  Cached.coherent read_csv s ->
  Cached.coherent read_csv (Cached.run to_csv read_csv seed calls s).
Proof.
  revert s. induction calls as [|c calls IH]; intros s Hs; [exact Hs|].
  cbn. apply IH. destruct c as [|df]; cbn.
  - apply load_foods_coherent, Hs.
  - apply save_foods_coherent.
Qed.

(** X17.  The cache of [load_foods] never goes stale through the program's
    own writes.  From a state in which the cache, if filled, agrees with
    the file, after any sequence of loads and saves it still does; a load
    then returns what reading the file as it stands returns (the seed's
    file when there is none) and leaves a file in place; and a load right
    after [save_foods df] returns what reading the written frame returns. *)
Theorem load_foods_never_stale (calls : list (Cached.call Frame))
    (s : Cached.Store Frame Bytes) (df : Frame) :
  Cached.coherent read_csv s ->
  let s' := Cached.run to_csv read_csv seed calls s in
  Cached.coherent read_csv s' /\
  fst (Cached.load_foods to_csv read_csv seed s')
  = read_csv (match Cached.foods_path s' with
              | Some b => b
              | None => to_csv seed
              end) /\
  fst (Cached.load_foods to_csv read_csv seed
         (Cached.save_foods to_csv df s'))
  = read_csv (to_csv df) /\
  Cached.foods_path (snd (Cached.load_foods to_csv read_csv seed s')) <> None.
Proof.
  intros Hs s'.
  assert (Hs' : Cached.coherent read_csv s') by (apply run_coherent, Hs).
  split; [exact Hs'|].
  split; [|split].
  - unfold Cached.load_foods.
    destruct (Cached.cache s') as [df'|] eqn:E; cbn [fst]; [|reflexivity].
    destruct (Hs' df' E) as (b & Hb & ->). rewrite Hb. reflexivity.
  - reflexivity.
  - unfold Cached.load_foods.
    destruct (Cached.cache s') as [df'|] eqn:E; cbn [snd].
    + destruct (Hs' df' E) as (b & Hb & _). rewrite Hb. discriminate.
    + cbn. discriminate.
Qed.

End CachedFacts.

(** A process that loads, saves a catalogue with a second row and loads
    again gets the two rows, not the cached one. *)
Lemma load_foods_never_stale_witness :
  let s0 := {| Cached.foods_path := Some [oats];
               Cached.cache := @None (list (Food Q)) |} in
  let rice := {| name := "Rice"; base_amount := 100%Q; unit := "g";
                 calories := 130%Q; protein_g := 3%Q; fat_g := 0%Q;
                 sat_fat_g := 0%Q |} in
  Cached.coherent (fun b => b) s0 /\
  fst (Cached.load_foods (fun df => df) (fun b => b) []
         (Cached.run (fun df => df) (fun b => b) []
            [Cached.Load _; Cached.Save [oats; rice]] s0))
  = [oats; rice].
Proof.
  cbv zeta.
  assert (H0 : Cached.coherent (fun b : list (Food Q) => b)
                 {| Cached.foods_path := Some [oats];
                    Cached.cache := @None (list (Food Q)) |}).
  { intros df Hdf. discriminate Hdf. }
  split; [exact H0|].
  destruct (@load_foods_never_stale (list (Food Q)) (list (Food Q))
              (fun df => df) (fun b => b) []
              [Cached.Load _;
               Cached.Save [oats; {| name := "Rice"; base_amount := 100%Q;
                                     unit := "g"; calories := 130%Q;
                                     protein_g := 3%Q; fat_g := 0%Q;
                                     sat_fat_g := 0%Q |}]]
              _ [] H0) as (_ & Hload & _).
  rewrite Hload. reflexivity.
Defined.

(** * Logging and the weekly roll-up *)

Section LoggingWeekly.
Context {A : Type} `{Num A}.
Local Open Scope list_scope.



End LoggingWeekly.
